(** * Inventory server: stock mutation engine and low-stock alert engine

    A shallow embedding of [server/queries.ts] ([transactionHelpers],
    [weeklyStockPlanQueries], [lowStockAlertQueries], [productQueries.create]),
    of the storage facade [DatabaseStorage.createStockTransaction] and of the
    tables of [shared/schema.ts] they touch.

    Numbers.  Every quantity column is [decimal(10,2)].  A stored value is
    carried as its number of hundredths, an integer: ["150.00"] is [15000].
    On such values [parseFloat], [+], [-], [<], [<=] and the write back into
    the column agree with integer arithmetic on hundredths (a double holds
    fifteen significant digits, the column ten, and the column rounds what
    [toString] printed back to two places).  A request's quantity string is
    taken at the scale of the column it is stored in: a decimal numeral with
    at most two fractional digits, of either sign.  Strings that do not
    parse, finer fractions and values beyond the ten digits of the column
    are outside the model.

    Time.  Timestamps are milliseconds since the epoch, dates are day
    numbers.  A call reads the clock once.  The audit columns the database
    fills by itself ([created_at], [updated_at]) are left out of the rows.

    Integrity.  Of the constraints of the schema the model keeps the primary
    key of [products] and the foreign keys of the rows the modelled code
    inserts: [stock_transactions] to [users] and [products],
    [low_stock_alerts] to [products] and [weekly_stock_plans]. *)

From stdpp Require Import base option list gmap strings pretty sorting.

Open Scope string_scope.
Open Scope Z_scope.

Abbreviation Decimal := Z (only parsing).
Abbreviation Timestamp := Z (only parsing).
Abbreviation Date := Z (only parsing).

(** ** Tables of shared/schema.ts *)

Module Product.
Record t := mk {
  id : Z;
  name : string;
  unit : string;
  openingStock : Decimal;
  currentStock : Decimal;
  isActive : Z;
}.

(** [.set({ currentStock: newStock })] *)
Definition setCurrentStock (p : t) (newStock : Decimal) : t :=
  mk (id p) (name p) (unit p) (openingStock p) newStock (isActive p).

(** [.set({ isActive: 0 })] *)
Definition setIsActive (p : t) (flag : Z) : t :=
  mk (id p) (name p) (unit p) (openingStock p) (currentStock p) flag.
End Product.

Inductive TransactionType := stock_in | stock_out.

Module StockTransaction.
Record t := mk {
  id : Z;
  productId : Z;
  userId : Z;
  type : TransactionType;
  quantity : Decimal;
  originalQuantity : option Decimal;
  originalUnit : option string;
  previousStock : Decimal;
  newStock : Decimal;
  transactionDate : Timestamp;
  soNumber : option string;
  poNumber : option string;
}.
End StockTransaction.

Module WeeklyStockPlan.
Record t := mk {
  id : Z;
  productId : Z;
  userId : Z;
  plannedQuantity : Decimal;
  unit : string;
  weekStartDate : Date;
  weekEndDate : Date;
  isActive : bool;
  notes : option string;
}.
End WeeklyStockPlan.

Inductive AlertLevel := low | critical.

Module LowStockAlert.
Record t := mk {
  id : Z;
  productId : Z;
  weeklyPlanId : Z;
  currentStock : Decimal;
  plannedQuantity : Decimal;
  alertLevel : AlertLevel;
  isResolved : bool;
  alertDate : Timestamp;
  resolvedAt : option Timestamp;
}.

(** [.set({ isResolved: true, resolvedAt: now })] *)
Definition setResolved (a : t) (now : Timestamp) : t :=
  mk (id a) (productId a) (weeklyPlanId a) (currentStock a)
     (plannedQuantity a) (alertLevel a) true (alertDate a) (Some now).
End LowStockAlert.

#[global] Instance TransactionType_eq_dec : EqDecision TransactionType.
Proof. solve_decision. Defined.
#[global] Instance AlertLevel_eq_dec : EqDecision AlertLevel.
Proof. solve_decision. Defined.

(** ** The database

    [products] is keyed by its primary key.  The transaction log, the plans
    and the alerts are kept in insertion order; [users] only matters through
    the foreign key of [stock_transactions.user_id].  The [_seq] fields are
    the serial counters behind the [id] columns; a statement that fails
    leaves them alone and a rolled-back transaction restores them with the
    rest. *)

Record DB := mkDB {
  users : gset Z;
  products : gmap Z Product.t;
  products_seq : Z;
  stockTransactions : list StockTransaction.t;
  stockTransactions_seq : Z;
  weeklyStockPlans : list WeeklyStockPlan.t;
  lowStockAlerts : list LowStockAlert.t;
  lowStockAlerts_seq : Z;
}.

Definition withProducts (db : DB) (ps : gmap Z Product.t) (seq : Z) : DB :=
  mkDB (users db) ps seq (stockTransactions db) (stockTransactions_seq db)
       (weeklyStockPlans db) (lowStockAlerts db) (lowStockAlerts_seq db).

Definition withStockTransactions (db : DB) (l : list StockTransaction.t)
    (seq : Z) : DB :=
  mkDB (users db) (products db) (products_seq db) l seq
       (weeklyStockPlans db) (lowStockAlerts db) (lowStockAlerts_seq db).

Definition withLowStockAlerts (db : DB) (l : list LowStockAlert.t)
    (seq : Z) : DB :=
  mkDB (users db) (products db) (products_seq db) (stockTransactions db)
       (stockTransactions_seq db) (weeklyStockPlans db) l seq.

(** ** Exceptions and the query monad

    A query runs against the database and either returns or throws; what it
    wrote before throwing stays written unless a [db_transaction] encloses
    it. *)

Inductive Exn :=
| Error (message : string)
| TypeError (message : string)
| DatabaseError (constraint : string).

Inductive Outcome (A : Type) :=
| Ok (a : A)
| Throw (e : Exn).
Arguments Ok {A} a.
Arguments Throw {A} e.

Definition Query (A : Type) : Type := DB → Outcome A * DB.

#[global] Instance Query_ret : MRet Query := λ A a db, (Ok a, db).

#[global] Instance Query_bind : MBind Query := λ A B k q db,
  match q db with
  | (Ok a, db') => k a db'
  | (Throw e, db') => (Throw e, db')
  end.

Definition throw {A} (e : Exn) : Query A := λ db, (Throw e, db).

(** [db.transaction(async (tx) => body)]: all of [body]'s writes or none. *)
Definition db_transaction {A} (body : Query A) : Query A :=
  λ db, match body db with
        | (Ok a, db') => (Ok a, db')
        | (Throw e, _) => (Throw e, db)
        end.

(** [try { body } catch (error) { handler }] *)
Definition tryCatch {A} (body : Query A) (handler : Exn → Query A)
    : Query A :=
  λ db, match body db with
        | (Ok a, db') => (Ok a, db')
        | (Throw e, db') => handler e db'
        end.

(** *** Statements *)

(** [select().from(products).where(eq(products.id, id)).limit(1)], row [0] *)
Definition selectProduct (id : Z) : Query (option Product.t) :=
  λ db, (Ok (products db !! id), db).

(** [update(products).set({ currentStock }).where(eq(products.id, id))
    .returning()], row [0] *)
Definition updateProductStock (id : Z) (newStock : Decimal)
    : Query (option Product.t) :=
  λ db, match products db !! id with
        | Some p =>
            let p' := Product.setCurrentStock p newStock in
            (Ok (Some p'),
             withProducts db (<[id := p']> (products db)) (products_seq db))
        | None => (Ok None, db)
        end.

(** The values of an [insert(stockTransactions)]: the row without its id. *)
Definition insertStockTransaction (row : Z → StockTransaction.t)
    : Query StockTransaction.t :=
  λ db,
    let r := row (stockTransactions_seq db) in
    if decide (StockTransaction.userId r ∈ users db) then
      if decide (is_Some (products db !! StockTransaction.productId r)) then
        (Ok r, withStockTransactions db (stockTransactions db ++ [r])
                 (stockTransactions_seq db + 1))
      else (Throw (DatabaseError "stock_transactions_product_id_fkey"), db)
    else (Throw (DatabaseError "stock_transactions_user_id_fkey"), db).

(** ** JavaScript number printing

    [String(parseFloat(s))] for a column value: no trailing zeros, no point
    when the fraction is zero. *)
Definition numberToString (v : Decimal) : string :=
  let a := Z.abs v in
  let whole := a / 100 in
  let frac := a mod 100 in
  (if bool_decide (v < 0) then "-" else EmptyString) ++ pretty whole ++
  (if bool_decide (frac = 0) then EmptyString
   else "." ++
     (if bool_decide (frac mod 10 = 0) then pretty (frac / 10)
      else (if bool_decide (frac < 10) then "0" else EmptyString)
           ++ pretty frac)).

(** ** transactionHelpers *)

Module transactionHelpers.

(** [{ transaction: transaction[0], product: updatedProduct[0] }] *)
Record StockResult := mkStockResult {
  transaction : StockTransaction.t;
  product : option Product.t;
}.

Definition processStockIn (productId userId : Z) (quantity : Decimal)
    (transactionDate : Timestamp) (remarks poNumber : option string)
    (originalQuantity : option Decimal) (originalUnit : option string)
    : Query StockResult :=
  db_transaction (
    currentProduct ← selectProduct productId;
    match currentProduct with
    | None => throw (Error "Product not found")
    | Some p =>
        let previousStock := Product.currentStock p in
        let newStock := previousStock + quantity in
        updatedProduct ← updateProductStock productId newStock;
        tx ← insertStockTransaction (λ id,
                StockTransaction.mk id productId userId stock_in quantity
                  originalQuantity originalUnit previousStock newStock
                  transactionDate None poNumber);
        mret (mkStockResult tx updatedProduct)
    end).

Definition insufficientStockMessage (available requested : Decimal) : string :=
  "Insufficient stock. Available: " ++ numberToString available ++
  ", Requested: " ++ numberToString requested.

Definition processStockOut (productId userId : Z) (quantity : Decimal)
    (transactionDate : Timestamp) (soNumber : option string)
    (originalQuantity : option Decimal) (originalUnit : option string)
    : Query StockResult :=
  db_transaction (
    currentProduct ← selectProduct productId;
    match currentProduct with
    | None => throw (Error "Product not found")
    | Some p =>
        let previousStock := Product.currentStock p in
        let currentStockNum := previousStock in
        let quantityNum := quantity in
        if bool_decide (currentStockNum < quantityNum) then
          throw (Error (insufficientStockMessage currentStockNum quantityNum))
        else
          let newStock := currentStockNum - quantityNum in
          updatedProduct ← updateProductStock productId newStock;
          tx ← insertStockTransaction (λ id,
                  StockTransaction.mk id productId userId stock_out quantity
                    originalQuantity originalUnit previousStock newStock
                    transactionDate soNumber None);
          mret (mkStockResult tx updatedProduct)
    end).

End transactionHelpers.

(** ** productQueries *)

Module productQueries.

(** [InsertProduct]: [openingStock] may be left out. *)
Record InsertProduct := mkInsertProduct {
  name : string;
  unit : string;
  openingStock : option Decimal;
}.

(** [insert(products).values({ ...productData,
      currentStock: productData.openingStock || "0" })]; the column default
    of [opening_stock] is ["0"], of [is_active] is [1]. *)
Definition create (productData : InsertProduct) : Query Product.t :=
  λ db,
    let id := products_seq db in
    let row := Product.mk id (name productData) (unit productData)
                 (default 0 (openingStock productData))
                 (default 0 (openingStock productData)) 1 in
    match products db !! id with
    | None => (Ok row, withProducts db (<[id := row]> (products db)) (id + 1))
    | Some _ => (Throw (DatabaseError "products_pkey"), db)
    end.

(** [update(products).set({ isActive: 0 }).where(eq(products.id, id))] *)
Definition delete (id : Z) : Query () :=
  λ db, match products db !! id with
        | Some p =>
            (Ok (), withProducts db
                      (<[id := Product.setIsActive p 0]> (products db))
                      (products_seq db))
        | None => (Ok (), db)
        end.

End productQueries.

(** ** DatabaseStorage.createStockTransaction *)

Module storage.

(** The [transaction: any] argument as the routes build it. *)
Record Request := mkRequest {
  productId : Z;
  userId : Z;
  type : TransactionType;
  quantity : Decimal;
  originalQuantity : option Decimal;
  originalUnit : option string;
  transactionDate : option Timestamp;
  soNumber : option string;
  poNumber : option string;
}.

(** [s || null] on an optional string: the empty string is falsy. *)
Definition orNull (s : option string) : option string :=
  match s with
  | Some EmptyString => None
  | _ => s
  end.

(** The record built in the [catch] block.  [random1000] is the value of
    [Math.floor(Math.random() * 1000)] and [now] that of [new Date()]. *)
Definition fallbackTransaction (random1000 : Z) (now : Timestamp)
    (transaction : Request) : StockTransaction.t :=
  StockTransaction.mk
    (random1000 + 1)
    (productId transaction)
    (userId transaction)
    (type transaction)
    (quantity transaction)
    (originalQuantity transaction)
    (orNull (originalUnit transaction))
    10000
    (if decide (type transaction = stock_in) then 11000 else 9000)
    (default now (transactionDate transaction))
    (orNull (soNumber transaction))
    (orNull (poNumber transaction)).

Definition createStockTransaction (random1000 : Z) (now : Timestamp)
    (transaction : Request) : Query StockTransaction.t :=
  tryCatch
    (let transactionDate := default now (transactionDate transaction) in
     if decide (type transaction = stock_in) then
       result ← transactionHelpers.processStockIn
                  (productId transaction) (userId transaction)
                  (quantity transaction) transactionDate
                  None (poNumber transaction)
                  (originalQuantity transaction) (originalUnit transaction);
       mret (transactionHelpers.transaction result)
     else
       result ← transactionHelpers.processStockOut
                  (productId transaction) (userId transaction)
                  (quantity transaction) transactionDate
                  (soNumber transaction)
                  (originalQuantity transaction) (originalUnit transaction);
       mret (transactionHelpers.transaction result))
    (λ error, mret (fallbackTransaction random1000 now transaction)).

End storage.

(** ** weeklyStockPlanQueries *)

Module weeklyStockPlanQueries.

(** A row of [weeklyStockPlans LEFT JOIN products]: the joined product is
    [null] when no product has the plan's [productId]. *)
Record WeeklyStockPlanWithDetails := mkDetails {
  plan : WeeklyStockPlan.t;
  product : option Product.t;
}.

(** [now.toISOString().split('T')[0]]: the UTC calendar day of [now]. *)
Definition toISODate (now : Timestamp) : Date := now / 86400000.

(** The [where(and(...))] clause of [getCurrentWeekPlans]. *)
Definition isCurrent (currentDate : Date) (p : WeeklyStockPlan.t) : Prop :=
  WeeklyStockPlan.isActive p = true ∧
  WeeklyStockPlan.weekStartDate p ≤ currentDate ∧
  currentDate ≤ WeeklyStockPlan.weekEndDate p.

#[global] Instance isCurrent_dec d p : Decision (isCurrent d p).
Proof. unfold isCurrent. apply _. Defined.

Definition getCurrentWeekPlans (now : Timestamp)
    : Query (list WeeklyStockPlanWithDetails) :=
  λ db,
    let currentDateString := toISODate now in
    (Ok ((λ p, mkDetails p (products db !! WeeklyStockPlan.productId p))
           <$> filter (isCurrent currentDateString) (weeklyStockPlans db)),
     db).

(** An element of the array [checkLowStockAlerts] returns. *)
Record Shortage := mkShortage {
  productId : Z;
  productName : string;
  currentStock : Decimal;
  plannedQuantity : Decimal;
  weeklyPlanId : Z;
  unit : string;
}.

(** The [for (const plan of currentWeekPlans)] loop; [lowStockItems] is the
    array pushed to.  Reading [plan.product.currentStock] off a [null]
    product throws. *)
Fixpoint collectLowStock (currentWeekPlans : list WeeklyStockPlanWithDetails)
    (lowStockItems : list Shortage) : Query (list Shortage) :=
  match currentWeekPlans with
  | [] => mret lowStockItems
  | row :: rest =>
      match product row with
      | None =>
          throw (TypeError "Cannot read properties of null")
      | Some prod =>
          let currentStock := Product.currentStock prod in
          let plannedQuantity := WeeklyStockPlan.plannedQuantity (plan row) in
          if bool_decide (currentStock < plannedQuantity) then
            collectLowStock rest
              (lowStockItems ++
                 [mkShortage (WeeklyStockPlan.productId (plan row))
                    (Product.name prod) currentStock plannedQuantity
                    (WeeklyStockPlan.id (plan row))
                    (WeeklyStockPlan.unit (plan row))])
          else collectLowStock rest lowStockItems
      end
  end.

Definition checkLowStockAlerts (now : Timestamp) : Query (list Shortage) :=
  currentWeekPlans ← getCurrentWeekPlans now;
  collectLowStock currentWeekPlans [].

End weeklyStockPlanQueries.

(** ** lowStockAlertQueries *)

Module lowStockAlertQueries.
Import weeklyStockPlanQueries.

(** [InsertLowStockAlert] *)
Record InsertLowStockAlert := mkInsertAlert {
  productId : Z;
  weeklyPlanId : Z;
  currentStock : Decimal;
  plannedQuantity : Decimal;
  alertLevel : AlertLevel;
  alertDate : Timestamp;
}.

(** The filter of the existence check: same product, same plan, open. *)
Definition isOpenFor (productId weeklyPlanId : Z) (a : LowStockAlert.t)
    : Prop :=
  LowStockAlert.productId a = productId ∧
  LowStockAlert.weeklyPlanId a = weeklyPlanId ∧
  LowStockAlert.isResolved a = false.

#[global] Instance isOpenFor_dec p w a : Decision (isOpenFor p w a).
Proof. unfold isOpenFor. apply _. Defined.

(** [select().from(lowStockAlerts).where(and(...)).limit(1)] *)
Definition selectOpenAlert (productId weeklyPlanId : Z)
    : Query (list LowStockAlert.t) :=
  λ db, (Ok (take 1 (filter (isOpenFor productId weeklyPlanId)
                       (lowStockAlerts db))), db).

(** [insert(lowStockAlerts).values(alertData).returning()], row [0];
    [is_resolved] defaults to [false], [resolved_at] to [null]. *)
Definition create (alertData : InsertLowStockAlert) : Query LowStockAlert.t :=
  λ db,
    let row := LowStockAlert.mk (lowStockAlerts_seq db)
                 (productId alertData) (weeklyPlanId alertData)
                 (currentStock alertData) (plannedQuantity alertData)
                 (alertLevel alertData) false (alertDate alertData) None in
    if decide (is_Some (products db !! productId alertData)) then
      if decide (weeklyPlanId alertData
                   ∈ WeeklyStockPlan.id <$> weeklyStockPlans db) then
        (Ok row, withLowStockAlerts db (lowStockAlerts db ++ [row])
                   (lowStockAlerts_seq db + 1))
      else (Throw (DatabaseError "low_stock_alerts_weekly_plan_id_fkey"), db)
    else (Throw (DatabaseError "low_stock_alerts_product_id_fkey"), db).

(** [update(lowStockAlerts).set({ isResolved: true, resolvedAt: now })
      .where(eq(lowStockAlerts.id, id)).returning()] *)
Definition resolve (now : Timestamp) (id : Z) : Query LowStockAlert.t :=
  λ db,
    let hit a := bool_decide (LowStockAlert.id a = id) in
    let result := (λ a, LowStockAlert.setResolved a now)
                    <$> filter (λ a, LowStockAlert.id a = id)
                          (lowStockAlerts db) in
    match result with
    | [] => (Throw (Error "Alert not found"), db)
    | r :: _ =>
        (Ok r,
         withLowStockAlerts db
           ((λ a, if hit a then LowStockAlert.setResolved a now else a)
              <$> lowStockAlerts db)
           (lowStockAlerts_seq db))
    end.

(** [item.currentStock <= item.plannedQuantity * 0.5 ? "critical" : "low"];
    on hundredths, both sides of the comparison doubled. *)
Definition levelOf (item : Shortage) : AlertLevel :=
  if bool_decide (weeklyStockPlanQueries.currentStock item * 2
                    ≤ weeklyStockPlanQueries.plannedQuantity item)
  then critical else low.

(** The [for (const item of lowStockItems)] loop; [newAlerts] is the array
    pushed to.  [now] is the value of [new Date()]. *)
Fixpoint createMissingAlerts (now : Timestamp) (lowStockItems : list Shortage)
    (newAlerts : list LowStockAlert.t) : Query (list LowStockAlert.t) :=
  match lowStockItems with
  | [] => mret newAlerts
  | item :: rest =>
      existingAlert ← selectOpenAlert
                        (weeklyStockPlanQueries.productId item)
                        (weeklyStockPlanQueries.weeklyPlanId item);
      if bool_decide (length existingAlert = 0%nat) then
        alert ← create
                  (mkInsertAlert
                     (weeklyStockPlanQueries.productId item)
                     (weeklyStockPlanQueries.weeklyPlanId item)
                     (weeklyStockPlanQueries.currentStock item)
                     (weeklyStockPlanQueries.plannedQuantity item)
                     (levelOf item)
                     now);
        createMissingAlerts now rest (newAlerts ++ [alert])
      else createMissingAlerts now rest newAlerts
  end.

Definition processLowStockChecking (now : Timestamp)
    : Query (list LowStockAlert.t) :=
  lowStockItems ← weeklyStockPlanQueries.checkLowStockAlerts now;
  createMissingAlerts now lowStockItems [].

End lowStockAlertQueries.


(** ** Sequences of engine calls *)

(** One call of the stock mutation engine, with its arguments. *)
Inductive Call :=
| StockIn (productId userId : Z) (quantity : Decimal)
    (transactionDate : Timestamp) (remarks poNumber : option string)
    (originalQuantity : option Decimal) (originalUnit : option string)
| StockOut (productId userId : Z) (quantity : Decimal)
    (transactionDate : Timestamp) (soNumber : option string)
    (originalQuantity : option Decimal) (originalUnit : option string).

Definition perform (c : Call) : Query transactionHelpers.StockResult :=
  match c with
  | StockIn pid uid q d rem po oq ou =>
      transactionHelpers.processStockIn pid uid q d rem po oq ou
  | StockOut pid uid q d so oq ou =>
      transactionHelpers.processStockOut pid uid q d so oq ou
  end.

Definition callProduct (c : Call) : Z :=
  match c with
  | StockIn pid _ _ _ _ _ _ _ | StockOut pid _ _ _ _ _ _ => pid
  end.

Definition callUser (c : Call) : Z :=
  match c with
  | StockIn _ uid _ _ _ _ _ _ | StockOut _ uid _ _ _ _ _ => uid
  end.

Definition callQuantity (c : Call) : Decimal :=
  match c with
  | StockIn _ _ q _ _ _ _ _ | StockOut _ _ q _ _ _ _ => q
  end.

Definition callType (c : Call) : TransactionType :=
  match c with
  | StockIn _ _ _ _ _ _ _ _ => stock_in
  | StockOut _ _ _ _ _ _ _ => stock_out
  end.

(** The engine call [createStockTransaction] makes for a request. *)
Definition requestCall (now : Timestamp) (transaction : storage.Request)
    : Call :=
  let transactionDate := default now (storage.transactionDate transaction) in
  match storage.type transaction with
  | stock_in =>
      StockIn (storage.productId transaction) (storage.userId transaction)
        (storage.quantity transaction) transactionDate None
        (storage.poNumber transaction)
        (storage.originalQuantity transaction)
        (storage.originalUnit transaction)
  | stock_out =>
      StockOut (storage.productId transaction) (storage.userId transaction)
        (storage.quantity transaction) transactionDate
        (storage.soNumber transaction)
        (storage.originalQuantity transaction)
        (storage.originalUnit transaction)
  end.

(** Calls made one after the other, each its own unit of work: a rejected
    call is skipped, the transactions of the accepted ones are collected. *)
Fixpoint performAll (calls : list Call) (db : DB)
    : list StockTransaction.t * DB :=
  match calls with
  | [] => ([], db)
  | c :: rest =>
      match perform c db with
      | (Ok r, db') =>
          let '(accepted, db'') := performAll rest db' in
          (transactionHelpers.transaction r :: accepted, db'')
      | (Throw _, db') => performAll rest db'
      end
  end.


(** [sub] occurs somewhere in [s]. *)
Definition includes (s sub : string) : Prop :=
  ∃ before after, s = (before ++ sub ++ after)%string.

(** The stock of a product, if it exists. *)
Definition stockOf (db : DB) (pid : Z) : option Decimal :=
  Product.currentStock <$> products db !! pid.

(** ** Shortfalls and alerts, as the design states them *)

(** The shortage descriptor of a joined plan row: there is one exactly when
    the product's current stock is strictly below the planned quantity. *)
Definition shortageOf (row : weeklyStockPlanQueries.WeeklyStockPlanWithDetails)
    : option weeklyStockPlanQueries.Shortage :=
  let plan := weeklyStockPlanQueries.plan row in
  prod ← weeklyStockPlanQueries.product row;
  if decide (Product.currentStock prod < WeeklyStockPlan.plannedQuantity plan)
  then Some (weeklyStockPlanQueries.mkShortage
               (WeeklyStockPlan.productId plan) (Product.name prod)
               (Product.currentStock prod)
               (WeeklyStockPlan.plannedQuantity plan)
               (WeeklyStockPlan.id plan) (WeeklyStockPlan.unit plan))
  else None.

(** The rows [getCurrentWeekPlans] returns. *)
Definition currentRows (now : Timestamp) (db : DB)
    : list weeklyStockPlanQueries.WeeklyStockPlanWithDetails :=
  (λ p, weeklyStockPlanQueries.mkDetails p
          (products db !! WeeklyStockPlan.productId p))
    <$> filter (weeklyStockPlanQueries.isCurrent
                  (weeklyStockPlanQueries.toISODate now))
          (weeklyStockPlans db).

(** The alert row created for a shortage at [now] under the id [id]. *)
Definition alertFor (now : Timestamp) (item : weeklyStockPlanQueries.Shortage)
    (id : Z) : LowStockAlert.t :=
  LowStockAlert.mk id
    (weeklyStockPlanQueries.productId item)
    (weeklyStockPlanQueries.weeklyPlanId item)
    (weeklyStockPlanQueries.currentStock item)
    (weeklyStockPlanQueries.plannedQuantity item)
    (lowStockAlertQueries.levelOf item) false now None.

(** Some unresolved alert of [alerts] is on the product and plan of [item]. *)
Definition hasOpenAlert (alerts : list LowStockAlert.t)
    (item : weeklyStockPlanQueries.Shortage) : Prop :=
  ∃ a, a ∈ alerts
       ∧ lowStockAlertQueries.isOpenFor
           (weeklyStockPlanQueries.productId item)
           (weeklyStockPlanQueries.weeklyPlanId item) a.

(** The foreign key of [weekly_stock_plans.product_id]. *)
Definition plansReferToProducts (db : DB) : Prop :=
  ∀ pl, pl ∈ weeklyStockPlans db →
        is_Some (products db !! WeeklyStockPlan.productId pl).

(** ** Example data

    The scenarios of the design notes: a shop with one operator (id 7) and
    the product Rice. *)

Module Examples.

Definition emptyShop : DB := mkDB {[ 7 ]} ∅ 1 [] 1 [] [] 1.

Definition riceData : productQueries.InsertProduct :=
  productQueries.mkInsertProduct "Rice" "KG" (Some 10000).

(** Rice as [productQueries.create riceData] makes it: 100.00 in stock. *)
Definition rice : Product.t := Product.mk 1 "Rice" "KG" 10000 10000 1.

Definition shop : DB := mkDB {[ 7 ]} {[ 1 := rice ]} 2 [] 1 [] [] 1.

(** Rice after a stock-in of 50.00. *)
Definition rice150 : Product.t := Product.mk 1 "Rice" "KG" 10000 15000 1.

Definition shop150 : DB := mkDB {[ 7 ]} {[ 1 := rice150 ]} 2 [] 1 [] [] 1.

Definition stockIn50 : Call :=
  StockIn 1 7 5000 0 None (Some "PO-1") None None.

Definition stockOut150 : Call :=
  StockOut 1 7 15000 0 (Some "SO-1") None None.

Definition stockOut10 : Call := StockOut 1 7 1000 0 None None None.

(** A stock-in whose quantity is -5.00. *)
Definition stockInMinus5 : Call :=
  StockIn 1 7 (-500) 0 None None None None.

(** What [stockIn50] returns on [shop], and the database it leaves. *)
Definition stockIn50Result : transactionHelpers.StockResult :=
  transactionHelpers.mkStockResult
    (StockTransaction.mk 1 1 7 stock_in 5000 None None 10000 15000 0 None
       (Some "PO-1"))
    (Some rice150).

Definition shopAfterStockIn50 : DB := (perform stockIn50 shop).2.

(** Scenarios 1 to 3 in a row: +50.00, -150.00, then -10.00 refused. *)
Definition scenario : list Call := [stockIn50; stockOut150; stockOut10].

(** Rice with only 5.00 left. *)
Definition rice5 : Product.t := Product.mk 1 "Rice" "KG" 10000 500 1.

Definition shop5 : DB := mkDB {[ 7 ]} {[ 1 := rice5 ]} 2 [] 1 [] [] 1.

(** A stock-out request for 10.00 of Rice, as the route builds it. *)
Definition requestOut10 : storage.Request :=
  storage.mkRequest 1 7 stock_out 1000 None None (Some 0) None None.

(** Scenario 4: a plan of 200.00 for the week of days 100 to 106, Rice at
    80.00, the clock on day 103. *)
Definition rice80 : Product.t := Product.mk 1 "Rice" "KG" 10000 8000 1.

Definition ricePlan : WeeklyStockPlan.t :=
  WeeklyStockPlan.mk 1 1 7 20000 "KG" 100 106 true None.

Definition plannedShop : DB :=
  mkDB {[ 7 ]} {[ 1 := rice80 ]} 2 [] 1 [ricePlan] [] 1.

Definition day103 : Timestamp := 103 * 86400000 + 5.

Definition laterOnDay103 : Timestamp := 103 * 86400000 + 3600000.

(** The alert the first check on [plannedShop] creates, and the database
    after it. *)
Definition riceAlert : LowStockAlert.t :=
  LowStockAlert.mk 1 1 1 8000 20000 critical false day103 None.

Definition plannedShopChecked : DB :=
  (lowStockAlertQueries.processLowStockChecking day103 plannedShop).2.

(** The same shop after Rice was soft-deleted. *)
Definition rice80Deleted : Product.t := Product.setIsActive rice80 0.

Definition plannedShopRiceDeleted : DB :=
  (productQueries.delete 1 plannedShop).2.

(** A product created without opening stock. *)
Definition emptyBinData : productQueries.InsertProduct :=
  productQueries.mkInsertProduct "Bin" "Pieces" None.

End Examples.

(** * The rest of the server

    The other queries of [server/queries.ts], the storage facade and the
    route handlers around the two engines.  Rows come out of a table in no
    promised order; where the source sorts, rows with equal keys keep the
    order of the table. *)

Definition withUsers (db : DB) (us : gset Z) : DB :=
  mkDB us (products db) (products_seq db) (stockTransactions db)
       (stockTransactions_seq db) (weeklyStockPlans db) (lowStockAlerts db)
       (lowStockAlerts_seq db).

Definition withWeeklyStockPlans (db : DB) (l : list WeeklyStockPlan.t) : DB :=
  mkDB (users db) (products db) (products_seq db) (stockTransactions db)
       (stockTransactions_seq db) l (lowStockAlerts db)
       (lowStockAlerts_seq db).

(** [select().from(products)]: the rows of the table. *)
Definition productRows (db : DB) : list Product.t :=
  (map_to_list (products db)).*2.

(** [COALESCE(SUM(CAST(column AS DECIMAL)), 0)] over rows. *)
Definition sumOf {A} (column : A → Decimal) (rows : list A) : Decimal :=
  foldr (λ row acc, column row + acc) 0 rows.

(** [count()] over rows. *)
Definition countOf {A} (rows : list A) : Z := Z.of_nat (length rows).

(** [error.code], the SQLSTATE of a database error: 23505 for a key that
    exists already, 23503 for a broken reference. *)
Definition errorCode (e : Exn) : option string :=
  match e with
  | DatabaseError constraint =>
      if decide (constraint ∈ ["products_pkey"; "weekly_stock_plans_pkey"])
      then Some "23505" else Some "23503"
  | _ => None
  end.


(** ** productQueries, continued *)

(** [productQueries.hardDelete]: [delete(products).where(eq(products.id,
    id))].  The database refuses while a transaction, a plan or an alert
    refers to the product. *)
Definition productQueries_hardDelete (id : Z) : Query () :=
  λ db,
    if decide (id ∈ StockTransaction.productId <$> stockTransactions db) then
      (Throw (DatabaseError "stock_transactions_product_id_fkey"), db)
    else if decide (id ∈ WeeklyStockPlan.productId <$> weeklyStockPlans db)
    then (Throw (DatabaseError "weekly_stock_plans_product_id_fkey"), db)
    else if decide (id ∈ LowStockAlert.productId <$> lowStockAlerts db)
    then (Throw (DatabaseError "low_stock_alerts_product_id_fkey"), db)
    else (Ok (), withProducts db (delete id (products db)) (products_seq db)).

(** The default of [getLowStock]'s [threshold], 10 units. *)
Definition defaultThreshold : Decimal := 1000.

(** [productQueries.getLowStock]: the active products whose stock is below
    [threshold], lowest stock first. *)
Definition lowestStockFirst (a b : Product.t) : Prop :=
  Product.currentStock a ≤ Product.currentStock b.

#[global] Instance lowestStockFirst_dec : RelDecision lowestStockFirst.
Proof. intros a b. unfold lowestStockFirst. apply _. Defined.

Definition productQueries_getLowStock (threshold : Decimal)
    : Query (list Product.t) :=
  λ db,
    (Ok (merge_sort lowestStockFirst
           (filter (λ p, Product.currentStock p < threshold
                         ∧ Product.isActive p = 1)
              (productRows db))),
     db).

(** ** stockTransactionQueries *)

Module stockTransactionQueries.

(** The [filters] argument; every key may be left out. *)
Record Filters := mkFilters {
  productId : option Z;
  type : option TransactionType;
  userId : option Z;
  fromDate : option Timestamp;
  toDate : option Timestamp;
}.

Definition noFilters : Filters := mkFilters None None None None None.

(** [if (filters?.key)] on a numeric key: [undefined] and [0] are falsy. *)
Definition truthyId (key : option Z) : option Z :=
  match key with
  | Some 0 => None
  | _ => key
  end.

(** One pushed condition: it holds when the key was left out. *)
Definition condition {A} (key : option A) (holds : A → Prop) : Prop :=
  from_option holds True key.

#[global] Instance condition_dec {A} (key : option A) (holds : A → Prop)
  `{∀ a, Decision (holds a)} : Decision (condition key holds).
Proof. destruct key; simpl; apply _. Defined.

(** The conjunction of the [conditions] pushed for [filters]. *)
Definition matches (filters : Filters) (t : StockTransaction.t) : Prop :=
  condition (truthyId (productId filters))
    (λ id, StockTransaction.productId t = id)
  ∧ condition (type filters) (λ ty, StockTransaction.type t = ty)
  ∧ condition (truthyId (userId filters))
      (λ id, StockTransaction.userId t = id)
  ∧ condition (fromDate filters)
      (λ d, d ≤ StockTransaction.transactionDate t)
  ∧ condition (toDate filters)
      (λ d, StockTransaction.transactionDate t ≤ d).

#[global] Instance matches_dec filters t : Decision (matches filters t).
Proof. unfold matches. apply _. Defined.

(** A row of [stockTransactions LEFT JOIN products LEFT JOIN users]; of the
    user the model has the id. *)
Record StockTransactionWithDetails := mkDetails {
  transaction : StockTransaction.t;
  product : option Product.t;
  user : option Z;
}.

(** [orderBy(desc(stockTransactions.transactionDate))] *)
Definition latestFirst (a b : StockTransactionWithDetails) : Prop :=
  StockTransaction.transactionDate (transaction b)
  ≤ StockTransaction.transactionDate (transaction a).

#[global] Instance latestFirst_dec : RelDecision latestFirst.
Proof. intros a b. unfold latestFirst. apply _. Defined.

Definition getAllWithDetails (filters : option Filters)
    : Query (list StockTransactionWithDetails) :=
  λ db,
    (Ok (merge_sort latestFirst
           ((λ t, mkDetails t
                    (products db !! StockTransaction.productId t)
                    (if decide (StockTransaction.userId t ∈ users db)
                     then Some (StockTransaction.userId t) else None))
              <$> filter (matches (default noFilters filters))
                    (stockTransactions db))),
     db).

Definition getByProductId (productId : Z)
    : Query (list StockTransactionWithDetails) :=
  getAllWithDetails (Some (mkFilters (Some productId) None None None None)).

Definition getByUserId (userId : Z)
    : Query (list StockTransactionWithDetails) :=
  getAllWithDetails (Some (mkFilters None None (Some userId) None None)).

Definition getByType (type : TransactionType)
    : Query (list StockTransactionWithDetails) :=
  getAllWithDetails (Some (mkFilters None (Some type) None None None)).

Definition getByDateRange (fromDate toDate : Timestamp)
    : Query (list StockTransactionWithDetails) :=
  getAllWithDetails
    (Some (mkFilters None None None (Some fromDate) (Some toDate))).

End stockTransactionQueries.

(** ** dashboardQueries *)

Module dashboardQueries.

Record Stats := mkStats {
  totalProducts : Z;
  totalStock : Decimal;
  todayStockIn : Decimal;
  todayStockOut : Decimal;
  activeProducts : Z;
  lowStockProducts : Z;
}.

(** The transactions of one type dated from [today] to [tomorrow], both
    ends included. *)
Definition movedBetween (ty : TransactionType) (today tomorrow : Timestamp)
    (t : StockTransaction.t) : Prop :=
  StockTransaction.type t = ty
  ∧ today ≤ StockTransaction.transactionDate t
  ∧ StockTransaction.transactionDate t ≤ tomorrow.

#[global] Instance movedBetween_dec ty d1 d2 t :
  Decision (movedBetween ty d1 d2 t).
Proof. unfold movedBetween. apply _. Defined.

(** [getStats].  [today] and [tomorrow] are the two dates the function
    derives from the clock: midnight of the current day and of the next, in
    the server's time zone. *)
Definition getStats (today tomorrow : Timestamp) : Query Stats :=
  λ db,
    let active := filter (λ p, Product.isActive p = 1) (productRows db) in
    (Ok (mkStats
           (countOf (productRows db))
           (sumOf Product.currentStock active)
           (sumOf StockTransaction.quantity
              (filter (movedBetween stock_in today tomorrow)
                 (stockTransactions db)))
           (sumOf StockTransaction.quantity
              (filter (movedBetween stock_out today tomorrow)
                 (stockTransactions db)))
           (countOf active)
           (countOf (filter (λ p, Product.currentStock p < 1000
                                  ∧ Product.isActive p = 1)
                       (productRows db)))),
     db).

(** The [stockRanges] of [getInventoryAnalytics], in units. *)
Definition stockRanges : list (string * Z * Z) :=
  [("0", 0, 0); ("1-10", 1, 10); ("11-50", 11, 50); ("51-100", 51, 100);
   ("100+", 101, 999999)].

(** The [stockDistribution] part of [getInventoryAnalytics]: for each range
    the number of active products whose stock lies between [min] and [max],
    both included. *)
Definition stockDistribution : Query (list (string * Z)) :=
  λ db,
    (Ok ((λ '(range, min, max),
            (range,
             countOf (filter (λ p, Product.isActive p = 1
                                   ∧ min * 100 ≤ Product.currentStock p
                                   ∧ Product.currentStock p ≤ max * 100)
                        (productRows db))))
           <$> stockRanges),
     db).

End dashboardQueries.

(** ** weeklyStockPlanQueries, continued *)

Module InsertWeeklyStockPlan.
Record t := mk {
  productId : Z;
  userId : Z;
  plannedQuantity : Decimal;
  unit : string;
  weekStartDate : Date;
  weekEndDate : Date;
  notes : option string;
}.
End InsertWeeklyStockPlan.

(** [Partial<InsertWeeklyStockPlan>]: a key left out leaves the column as it
    is. *)
Module UpdateWeeklyStockPlan.
Record t := mk {
  productId : option Z;
  userId : option Z;
  plannedQuantity : option Decimal;
  unit : option string;
  weekStartDate : option Date;
  weekEndDate : option Date;
  notes : option (option string);
}.

(** [.set({ ...planData })] on one row. *)
Definition apply (planData : t) (p : WeeklyStockPlan.t) : WeeklyStockPlan.t :=
  WeeklyStockPlan.mk (WeeklyStockPlan.id p)
    (default (WeeklyStockPlan.productId p) (productId planData))
    (default (WeeklyStockPlan.userId p) (userId planData))
    (default (WeeklyStockPlan.plannedQuantity p) (plannedQuantity planData))
    (default (WeeklyStockPlan.unit p) (unit planData))
    (default (WeeklyStockPlan.weekStartDate p) (weekStartDate planData))
    (default (WeeklyStockPlan.weekEndDate p) (weekEndDate planData))
    (WeeklyStockPlan.isActive p)
    (default (WeeklyStockPlan.notes p) (notes planData)).
End UpdateWeeklyStockPlan.

(** [orderBy(desc(weeklyStockPlans.weekStartDate))] *)
Definition latestWeekFirst
    (a b : weeklyStockPlanQueries.WeeklyStockPlanWithDetails) : Prop :=
  WeeklyStockPlan.weekStartDate (weeklyStockPlanQueries.plan b)
  ≤ WeeklyStockPlan.weekStartDate (weeklyStockPlanQueries.plan a).

#[global] Instance latestWeekFirst_dec : RelDecision latestWeekFirst.
Proof. intros a b. unfold latestWeekFirst. apply _. Defined.

(** [weeklyStockPlanQueries.getAll]: the active plans, latest week first. *)
Definition weeklyStockPlanQueries_getAll
    : Query (list weeklyStockPlanQueries.WeeklyStockPlanWithDetails) :=
  λ db,
    (Ok (merge_sort latestWeekFirst
           ((λ p, weeklyStockPlanQueries.mkDetails p
                    (products db !! WeeklyStockPlan.productId p))
              <$> filter (λ p, WeeklyStockPlan.isActive p = true)
                    (weeklyStockPlans db))),
     db).

(** [weeklyStockPlanQueries.create].  [id] is the value the serial counter
    of the table hands out; [is_active] defaults to [true]. *)
Definition weeklyStockPlanQueries_create (id : Z)
    (planData : InsertWeeklyStockPlan.t) : Query WeeklyStockPlan.t :=
  λ db,
    let row := WeeklyStockPlan.mk id
                 (InsertWeeklyStockPlan.productId planData)
                 (InsertWeeklyStockPlan.userId planData)
                 (InsertWeeklyStockPlan.plannedQuantity planData)
                 (InsertWeeklyStockPlan.unit planData)
                 (InsertWeeklyStockPlan.weekStartDate planData)
                 (InsertWeeklyStockPlan.weekEndDate planData)
                 true
                 (InsertWeeklyStockPlan.notes planData) in
    if decide (id ∈ WeeklyStockPlan.id <$> weeklyStockPlans db) then
      (Throw (DatabaseError "weekly_stock_plans_pkey"), db)
    else if decide (is_Some (products db !! WeeklyStockPlan.productId row))
    then
      if decide (WeeklyStockPlan.userId row ∈ users db) then
        (Ok row, withWeeklyStockPlans db (weeklyStockPlans db ++ [row]))
      else (Throw (DatabaseError "weekly_stock_plans_user_id_fkey"), db)
    else (Throw (DatabaseError "weekly_stock_plans_product_id_fkey"), db).

(** [weeklyStockPlanQueries.update]: every row with the id takes the given
    keys; a product or user given must exist; no row, and the function
    throws. *)
Definition weeklyStockPlanQueries_update (id : Z)
    (planData : UpdateWeeklyStockPlan.t) : Query WeeklyStockPlan.t :=
  λ db,
    let hit p := bool_decide (WeeklyStockPlan.id p = id) in
    let result := UpdateWeeklyStockPlan.apply planData
                    <$> filter (λ p, WeeklyStockPlan.id p = id)
                          (weeklyStockPlans db) in
    match result with
    | [] => (Throw (Error "Weekly stock plan not found"), db)
    | r :: _ =>
        if decide (from_option (λ pid, is_Some (products db !! pid)) True
                     (UpdateWeeklyStockPlan.productId planData)) then
          if decide (from_option (λ uid, uid ∈ users db) True
                       (UpdateWeeklyStockPlan.userId planData)) then
            (Ok r,
             withWeeklyStockPlans db
               ((λ p, if hit p then UpdateWeeklyStockPlan.apply planData p
                      else p) <$> weeklyStockPlans db))
          else (Throw (DatabaseError "weekly_stock_plans_user_id_fkey"), db)
        else (Throw (DatabaseError "weekly_stock_plans_product_id_fkey"), db)
    end.

(** [.set({ isActive: false })] *)
Definition deactivate (p : WeeklyStockPlan.t) : WeeklyStockPlan.t :=
  WeeklyStockPlan.mk (WeeklyStockPlan.id p) (WeeklyStockPlan.productId p)
    (WeeklyStockPlan.userId p) (WeeklyStockPlan.plannedQuantity p)
    (WeeklyStockPlan.unit p) (WeeklyStockPlan.weekStartDate p)
    (WeeklyStockPlan.weekEndDate p) false (WeeklyStockPlan.notes p).

(** [weeklyStockPlanQueries.delete]: the plan is switched off, not
    removed. *)
Definition weeklyStockPlanQueries_delete (id : Z) : Query () :=
  λ db,
    (Ok (),
     withWeeklyStockPlans db
       ((λ p, if bool_decide (WeeklyStockPlan.id p = id) then deactivate p
              else p) <$> weeklyStockPlans db)).

(** ** lowStockAlertQueries, continued *)

(** A row of [lowStockAlerts LEFT JOIN products LEFT JOIN
    weeklyStockPlans]. *)
Record LowStockAlertWithDetails := mkAlertDetails {
  alert : LowStockAlert.t;
  alertProduct : option Product.t;
  alertPlan : option WeeklyStockPlan.t;
}.

(** [orderBy(desc(lowStockAlerts.alertDate))] *)
Definition latestAlertFirst (a b : LowStockAlertWithDetails) : Prop :=
  LowStockAlert.alertDate (alert b) ≤ LowStockAlert.alertDate (alert a).

#[global] Instance latestAlertFirst_dec : RelDecision latestAlertFirst.
Proof. intros a b. unfold latestAlertFirst. apply _. Defined.

(** [lowStockAlertQueries.getUnresolvedAlerts] *)
Definition lowStockAlertQueries_getUnresolvedAlerts
    : Query (list LowStockAlertWithDetails) :=
  λ db,
    (Ok (merge_sort latestAlertFirst
           ((λ a, mkAlertDetails a
                    (products db !! LowStockAlert.productId a)
                    (head (filter (λ p, WeeklyStockPlan.id p
                                        = LowStockAlert.weeklyPlanId a)
                             (weeklyStockPlans db))))
              <$> filter (λ a, LowStockAlert.isResolved a = false)
                    (lowStockAlerts db))),
     db).

(** ** userQueries *)

Module userQueries.

(** [getTransactionCount]: [count( * )] of the user's transactions. *)
Definition getTransactionCount (userId : Z) : Query Z :=
  λ db,
    (Ok (countOf (filter (λ t, StockTransaction.userId t = userId)
                    (stockTransactions db))),
     db).

(** [userQueries.delete]: [delete(users).where(eq(users.id, userId))].  The
    database refuses while a transaction or a plan refers to the user. *)
Definition delete (userId : Z) : Query () :=
  λ db,
    if decide (userId ∈ StockTransaction.userId <$> stockTransactions db) then
      (Throw (DatabaseError "stock_transactions_user_id_fkey"), db)
    else if decide (userId ∈ WeeklyStockPlan.userId <$> weeklyStockPlans db)
    then (Throw (DatabaseError "weekly_stock_plans_user_id_fkey"), db)
    else (Ok (), withUsers db (users db ∖ {[ userId ]})).

End userQueries.

(** ** Route handlers *)

Module routes.

Inductive UserRole :=
| super_admin
| master_inventory_handler
| stock_in_manager
| stock_out_manager
| attendance_manager.

#[global] Instance UserRole_eq_dec : EqDecision UserRole.
Proof. solve_decision. Defined.

(** [req.user], as the session middleware leaves it. *)
Record ReqUser := mkReqUser {
  id : Z;
  role : UserRole;
}.

(** What [res.status(..).json(..)] sends. *)
Inductive Body :=
| Message (message : string)
| MessageWithCount (message : string) (transactionCount : Z)
| Transactions (results : list StockTransaction.t)
| Alert (alert : LowStockAlert.t)
| CheckResult (message : string) (newAlerts : Z)
    (alerts : list LowStockAlert.t)
| NoContent.

Record Response := mkResponse {
  status : Z;
  body : Body;
}.

(** [requireRole(allowedRoles)] in front of a handler. *)
Definition requireRole (allowedRoles : list UserRole) (user : option ReqUser)
    (next : ReqUser → Query Response) : Query Response :=
  match user with
  | Some u =>
      if decide (role u ∈ allowedRoles) then next u
      else mret (mkResponse 403 (Message "Insufficient permissions"))
  | None => mret (mkResponse 403 (Message "Insufficient permissions"))
  end.








(** The message of the refusal to delete a user with transactions. *)
Definition hasTransactionsMessage (transactionCount : Z) : string :=
  "Cannot delete user. This user has " ++ pretty transactionCount ++
  " stock transaction(s) in the system. To maintain data integrity, users with transaction history cannot be deleted. You can deactivate the user instead.".

(** [DELETE /api/users/:id] *)
Definition deleteUser (user : option ReqUser) (userId : Z) : Query Response :=
  requireRole [super_admin] user
    (λ u,
       tryCatch
         (if decide (userId = id u) then
            mret (mkResponse 400 (Message "Cannot delete your own account"))
          else
            transactionCount ← userQueries.getTransactionCount userId;
            if decide (0 < transactionCount) then
              mret (mkResponse 400
                      (MessageWithCount
                         (hasTransactionsMessage transactionCount)
                         transactionCount))
            else
              _ ← userQueries.delete userId;
              mret (mkResponse 200 (Message "User deleted successfully")))
         (λ error,
            if decide (errorCode error = Some "23503") then
              mret (mkResponse 400
                      (Message "Cannot delete user due to existing transaction records. Please deactivate the user instead."))
            else mret (mkResponse 500 (Message "Failed to delete user")))).

(** [DELETE /api/products/:id]: the product is switched off. *)
Definition deleteProduct (user : option ReqUser) (id : Z) : Query Response :=
  requireRole [super_admin; master_inventory_handler] user
    (λ u,
       tryCatch
         (_ ← productQueries.delete id;
          mret (mkResponse 204 NoContent))
         (λ error,
            mret (mkResponse 500 (Message "Failed to delete product")))).

(** [POST /api/alerts/check-low-stock] *)
Definition checkLowStock (now : Timestamp) (user : option ReqUser)
    : Query Response :=
  requireRole [super_admin; master_inventory_handler] user
    (λ u,
       tryCatch
         (newAlerts ← lowStockAlertQueries.processLowStockChecking now;
          mret (mkResponse 200
                  (CheckResult
                     ("Low stock checking completed. "
                      ++ pretty (countOf newAlerts)
                      ++ " new alerts created.")
                     (countOf newAlerts) newAlerts)))
         (λ error,
            mret (mkResponse 500
                    (Message "Failed to process low stock checking")))).

(** [PUT /api/alerts/low-stock/:id/resolve] *)
Definition resolveAlert (now : Timestamp) (user : option ReqUser)
    (alertId : Z) : Query Response :=
  requireRole [super_admin; master_inventory_handler; stock_in_manager] user
    (λ u,
       tryCatch
         (alert ← lowStockAlertQueries.resolve now alertId;
          mret (mkResponse 200 (Alert alert)))
         (λ error,
            mret (mkResponse 500 (Message "Failed to resolve alert")))).

End routes.

(** ** Invariants the server keeps *)

(** The log is well formed: ids grow along it and stay below the counter,
    and every entry refers to a product and a user that exist. *)
Definition logWellFormed (db : DB) : Prop :=
  StronglySorted (λ a b, StockTransaction.id a < StockTransaction.id b)
    (stockTransactions db)
  ∧ ∀ t, t ∈ stockTransactions db →
         StockTransaction.id t < stockTransactions_seq db
         ∧ is_Some (products db !! StockTransaction.productId t)
         ∧ StockTransaction.userId t ∈ users db.







(** The stock levels the ranges of [stockDistribution] cover. *)
Definition inSomeRange (stock : Decimal) : Prop :=
  stock = 0
  ∨ 100 ≤ stock ≤ 1000
  ∨ 1100 ≤ stock ≤ 5000
  ∨ 5100 ≤ stock ≤ 10000
  ∨ 10100 ≤ stock ≤ 99999900.

#[global] Instance inSomeRange_dec stock : Decision (inSomeRange stock).
Proof. unfold inSomeRange. apply _. Defined.

(** More example data. *)
Module Samples.


(** The shop after scenario 1, with its one transaction logged. *)
Definition shopWithHistory : DB := (perform Examples.stockIn50 Examples.shop).2.

(** A second operator, with neither transactions nor plans. *)
Definition shopTwoUsers : DB := withUsers shopWithHistory {[ 7; 8 ]}.

Definition admin : routes.ReqUser := routes.mkReqUser 8 routes.super_admin.

Definition clerk : routes.ReqUser :=
  routes.mkReqUser 7 routes.stock_in_manager.

(** Half a unit of Rice. *)
Definition riceHalf : Product.t := Product.mk 1 "Rice" "KG" 10000 50 1.

Definition shopHalf : DB := mkDB {[ 7 ]} {[ 1 := riceHalf ]} 2 [] 1 [] [] 1.

Definition planData : InsertWeeklyStockPlan.t :=
  InsertWeeklyStockPlan.mk 1 7 20000 "KG" 100 106 None.

End Samples.

(** * Properties *)

(** ** The query monad *)

Ltac unfold_query :=
  unfold mbind, mret, Query_bind, Query_ret, throw, db_transaction, tryCatch,
    selectProduct, updateProductStock, insertStockTransaction.

Section Engine.
Import transactionHelpers.

Variables (productId userId : Z) (quantity : Decimal)
  (transactionDate : Timestamp).
Variables (remarks poNumber soNumber : option string)
  (originalQuantity : option Decimal) (originalUnit : option string).

(** The row a stock-in writes for a product read as [p]. *)
Definition stockInRow (db : DB) (p : Product.t) : StockTransaction.t :=
  StockTransaction.mk (stockTransactions_seq db) productId userId stock_in
    quantity originalQuantity originalUnit (Product.currentStock p)
    (Product.currentStock p + quantity) transactionDate None poNumber.

Definition stockOutRow (db : DB) (p : Product.t) : StockTransaction.t :=
  StockTransaction.mk (stockTransactions_seq db) productId userId stock_out
    quantity originalQuantity originalUnit (Product.currentStock p)
    (Product.currentStock p - quantity) transactionDate soNumber None.

(** The database an accepted mutation leaves behind. *)
Definition committed (db : DB) (p : Product.t) (newStock : Decimal)
    (row : StockTransaction.t) : DB :=
  mkDB (users db)
    (<[productId := Product.setCurrentStock p newStock]> (products db))
    (products_seq db)
    (stockTransactions db ++ [row]) (stockTransactions_seq db + 1)
    (weeklyStockPlans db) (lowStockAlerts db) (lowStockAlerts_seq db).

Lemma processStockIn_not_found db :
  products db !! productId = None →
  processStockIn productId userId quantity transactionDate remarks poNumber
    originalQuantity originalUnit db
  = (Throw (Error "Product not found"), db).
Proof.
  intros Hnone. unfold processStockIn. unfold_query. rewrite Hnone. done.
Qed.

Lemma processStockIn_found db p :
  products db !! productId = Some p →
  processStockIn productId userId quantity transactionDate remarks poNumber
    originalQuantity originalUnit db
  = if decide (userId ∈ users db) then
      (Ok (mkStockResult (stockInRow db p)
             (Some (Product.setCurrentStock p
                      (Product.currentStock p + quantity)))),
       committed db p (Product.currentStock p + quantity) (stockInRow db p))
    else (Throw (DatabaseError "stock_transactions_user_id_fkey"), db).
Proof.
  intros Hp. unfold processStockIn. unfold_query. rewrite Hp. simpl.
  rewrite Hp. simpl.
  destruct (decide (userId ∈ users db)) as [Hu|Hu]; [|done].
  rewrite lookup_insert_eq.
  destruct (decide (is_Some _)) as [|Hn]; [done|].
  destruct Hn. eauto.
Qed.

Lemma processStockOut_not_found db :
  products db !! productId = None →
  processStockOut productId userId quantity transactionDate soNumber
    originalQuantity originalUnit db
  = (Throw (Error "Product not found"), db).
Proof.
  intros Hnone. unfold processStockOut. unfold_query. rewrite Hnone. done.
Qed.

Lemma processStockOut_found db p :
  products db !! productId = Some p →
  processStockOut productId userId quantity transactionDate soNumber
    originalQuantity originalUnit db
  = if bool_decide (Product.currentStock p < quantity) then
      (Throw (Error (insufficientStockMessage (Product.currentStock p)
                       quantity)), db)
    else if decide (userId ∈ users db) then
      (Ok (mkStockResult (stockOutRow db p)
             (Some (Product.setCurrentStock p
                      (Product.currentStock p - quantity)))),
       committed db p (Product.currentStock p - quantity)
         (stockOutRow db p))
    else (Throw (DatabaseError "stock_transactions_user_id_fkey"), db).
Proof.
  intros Hp. unfold processStockOut. unfold_query. rewrite Hp. simpl.
  case_bool_decide; [done|]. simpl. rewrite Hp. simpl.
  destruct (decide (userId ∈ users db)) as [Hu|Hu]; [|done].
  rewrite lookup_insert_eq.
  destruct (decide (is_Some _)) as [|Hn]; [done|].
  destruct Hn. eauto.
Qed.

End Engine.

(** ** Stock-out and insufficient stock *)

Lemma append_assoc (s1 s2 s3 : string) :
  ((s1 ++ s2) ++ s3 = s1 ++ s2 ++ s3)%string.
Proof.
  induction s1 as [|c s1 IH]; [reflexivity|].
  change (String c ((s1 ++ s2) ++ s3) = String c (s1 ++ s2 ++ s3))%string.
  by rewrite IH.
Qed.

Lemma append_empty_r (s : string) : (s ++ EmptyString)%string = s.
Proof.
  induction s as [|c s IH]; [reflexivity|].
  change (String c (s ++ EmptyString) = String c s)%string. by rewrite IH.
Qed.

(** The message names both quantities, as JavaScript prints them. *)
Lemma insufficientStockMessage_includes (available requested : Decimal) :
  let message :=
    transactionHelpers.insufficientStockMessage available requested in
  includes message (numberToString available)
  ∧ includes message (numberToString requested).
Proof.
  unfold transactionHelpers.insufficientStockMessage. split.
  - by eexists _, _.
  - exists ("Insufficient stock. Available: " ++ numberToString available
            ++ ", Requested: ")%string, EmptyString.
    by rewrite append_empty_r, !append_assoc.
Qed.

(** C1.  A stock-out on an existing product fails with the insufficient-stock
    error exactly when the requested quantity is strictly greater than the
    current stock; the message then carries the available and the requested
    quantity; a failed stock-out leaves the whole database, hence the
    product's stock and the transaction log, as it was; and a request for
    exactly the current stock by an existing operator is accepted and leaves
    the stock at 0. *)
Theorem processStockOut_insufficient_stock
    (db : DB) (productId userId : Z) (quantity : Decimal)
    (transactionDate : Timestamp) (soNumber : option string)
    (originalQuantity : option Decimal) (originalUnit : option string)
    (p : Product.t) :
  products db !! productId = Some p →
  let out := transactionHelpers.processStockOut productId userId quantity
               transactionDate soNumber originalQuantity originalUnit db in
  ((∃ available requested,
       out.1 = Throw (Error (transactionHelpers.insufficientStockMessage
                               available requested)))
     ↔ Product.currentStock p < quantity) ∧
  (Product.currentStock p < quantity →
     ∃ message,
       out.1 = Throw (Error message)
       ∧ message = ("Insufficient stock. Available: "
                    ++ numberToString (Product.currentStock p)
                    ++ ", Requested: " ++ numberToString quantity)%string
       ∧ includes message (numberToString (Product.currentStock p))
       ∧ includes message (numberToString quantity)) ∧
  (∀ e, out.1 = Throw e →
     out.2 = db ∧ stockOf out.2 productId = Some (Product.currentStock p)
     ∧ stockTransactions out.2 = stockTransactions db) ∧
  (userId ∈ users db → quantity = Product.currentStock p →
     ∃ r, out.1 = Ok r
          ∧ stockOf out.2 productId = Some 0
          ∧ Product.currentStock <$> transactionHelpers.product r = Some 0
          ∧ StockTransaction.newStock (transactionHelpers.transaction r) = 0
          ∧ stockTransactions out.2
            = (stockTransactions db
                 ++ [transactionHelpers.transaction r])%list).
Proof.
  intros Hp out. subst out.
  rewrite (processStockOut_found _ _ _ _ _ _ _ _ _ Hp).
  split; [split|split; [|split]].
  - intros (a & r & Heq). case_bool_decide; [assumption|].
    destruct (decide (userId ∈ users db)); simpl in Heq; discriminate.
  - intros Hlt. rewrite bool_decide_eq_true_2 by assumption. eauto.
  - intros Hlt. rewrite bool_decide_eq_true_2 by assumption.
    eexists. split; [reflexivity|]. split; [reflexivity|].
    apply insufficientStockMessage_includes.
  - intros e He.
    assert (Hsame : stockOf db productId = Some (Product.currentStock p))
      by (unfold stockOf; by rewrite Hp).
    case_bool_decide; [done|].
    destruct (decide (userId ∈ users db)); [discriminate|done].
  - intros Hu ->. rewrite bool_decide_eq_false_2 by lia.
    rewrite decide_True by assumption. eexists. split; [reflexivity|].
    unfold stockOf. simpl. rewrite lookup_insert_eq. simpl.
    rewrite Z.sub_diag. done.
Qed.

(** ** The ledger equation *)

(** What an accepted call did, in one place: the product was there, the
    operator too, and the database is the committed one. *)
Lemma perform_accepted (c : Call) (db db' : DB)
    (r : transactionHelpers.StockResult) :
  perform c db = (Ok r, db') →
  ∃ p, products db !! callProduct c = Some p
       ∧ callUser c ∈ users db
       ∧ (callType c = stock_out → callQuantity c ≤ Product.currentStock p)
       ∧ let tx := transactionHelpers.transaction r in
         let newStock :=
           match callType c with
           | stock_in => Product.currentStock p + callQuantity c
           | stock_out => Product.currentStock p - callQuantity c
           end in
         StockTransaction.productId tx = callProduct c
         ∧ StockTransaction.type tx = callType c
         ∧ StockTransaction.quantity tx = callQuantity c
         ∧ StockTransaction.previousStock tx = Product.currentStock p
         ∧ StockTransaction.newStock tx = newStock
         ∧ transactionHelpers.product r
           = Some (Product.setCurrentStock p newStock)
         ∧ db' = committed (callProduct c) db p newStock tx.
Proof.
  destruct c as [pid uid q d rem po oq ou|pid uid q d so oq ou]; simpl;
    intros Hrun; destruct (products db !! pid) as [p|] eqn:Hp.
  - rewrite (processStockIn_found _ _ _ _ _ _ _ _ _ _ Hp) in Hrun.
    destruct (decide (uid ∈ users db)); [|discriminate].
    injection Hrun as <- <-. exists p. simpl. split_and!; try done.
  - by rewrite processStockIn_not_found in Hrun.
  - rewrite (processStockOut_found _ _ _ _ _ _ _ _ _ Hp) in Hrun.
    case_bool_decide; [discriminate|].
    destruct (decide (uid ∈ users db)); [|discriminate].
    injection Hrun as <- <-. exists p. simpl. split_and!; try done.
    intros _; lia.
  - by rewrite processStockOut_not_found in Hrun.
Qed.

(** A rejected call writes nothing. *)
Lemma perform_rejected (c : Call) (db db' : DB) (e : Exn) :
  perform c db = (Throw e, db') → db' = db.
Proof.
  destruct c as [pid uid q d rem po oq ou|pid uid q d so oq ou]; simpl;
    intros Hrun; destruct (products db !! pid) as [p|] eqn:Hp.
  - rewrite (processStockIn_found _ _ _ _ _ _ _ _ _ _ Hp) in Hrun.
    destruct (decide (uid ∈ users db)); [discriminate|].
    by injection Hrun as _ <-.
  - rewrite processStockIn_not_found in Hrun by done.
    by injection Hrun as _ <-.
  - rewrite (processStockOut_found _ _ _ _ _ _ _ _ _ Hp) in Hrun.
    case_bool_decide; [by injection Hrun as _ <-|].
    destruct (decide (uid ∈ users db)); [discriminate|].
    by injection Hrun as _ <-.
  - rewrite processStockOut_not_found in Hrun by done.
    by injection Hrun as _ <-.
Qed.



(** ** Balance and non-negativity over sequences of calls *)



Lemma create_accepted (productData : productQueries.InsertProduct)
    (db db1 : DB) (p : Product.t) :
  productQueries.create productData db = (Ok p, db1) →
  products db1 !! Product.id p = Some p
  ∧ Product.openingStock p
    = default 0 (productQueries.openingStock productData)
  ∧ Product.currentStock p = Product.openingStock p
  ∧ stockTransactions db1 = stockTransactions db.
Proof.
  unfold productQueries.create.
  destruct (products db !! products_seq db); [discriminate|].
  intros [= <- <-]. simpl. by rewrite lookup_insert_eq.
Qed.


(** Non-negative stock stays non-negative as long as no stock-in carries a
    negative quantity. *)
Lemma performAll_nonneg (calls : list Call) :
  ∀ (db db2 : DB) (pid : Z) (p : Product.t)
    (accepted : list StockTransaction.t),
    Forall (λ c, callType c = stock_in → 0 ≤ callQuantity c) calls →
    products db !! pid = Some p →
    0 ≤ Product.currentStock p →
    performAll calls db = (accepted, db2) →
    ∃ p2, products db2 !! pid = Some p2 ∧ 0 ≤ Product.currentStock p2.
Proof.
  induction calls as [|c rest IH];
    intros db db2 pid p accepted Hin Hp Hpos Hrun.
  - injection Hrun as <- <-. eauto.
  - apply Forall_cons in Hin as [Hc0 Hrest0]. simpl in Hrun.
    destruct (perform c db) as [[r|e] db'] eqn:Hc.
    + destruct (performAll rest db') as [acc' db''] eqn:Hrest.
      injection Hrun as <- <-.
      destruct (perform_accepted _ _ _ _ Hc)
        as (pc & Hpc & _ & Hout & _ & _ & _ & _ & _ & _ & Hdb').
      destruct (decide (callProduct c = pid)) as [Heq|Hne].
      * subst pid. assert (pc = p) as -> by congruence.
        eapply (IH db' db'' (callProduct c)); [done| |..|exact Hrest].
        { rewrite Hdb'. simpl. apply lookup_insert_eq. }
        simpl. destruct (callType c); [specialize (Hc0 eq_refl)|
                                       specialize (Hout eq_refl)]; lia.
      * eapply (IH db' db'' pid); [done| |exact Hpos|exact Hrest].
        rewrite Hdb'. simpl. by rewrite lookup_insert_ne.
    + apply perform_rejected in Hc as ->. eauto.
Qed.

(** C4, as amended.  A product created with non-negative opening stock never
    has negative stock after a run of stock-in and stock-out calls, however
    interleaved with calls on other products, provided no stock-in of the
    run carries a negative quantity. *)
Theorem stock_never_negative (productData : productQueries.InsertProduct)
    (db db1 db2 : DB) (p : Product.t) (calls : list Call)
    (accepted : list StockTransaction.t) :
  productQueries.create productData db = (Ok p, db1) →
  0 ≤ Product.openingStock p →
  Forall (λ c, callType c = stock_in → 0 ≤ callQuantity c) calls →
  performAll calls db1 = (accepted, db2) →
  ∃ stock, stockOf db2 (Product.id p) = Some stock ∧ 0 ≤ stock.
Proof.
  intros Hcreate Hopen Hin Hrun.
  destruct (create_accepted _ _ _ _ Hcreate) as (Hp & _ & Hcur & _).
  destruct (performAll_nonneg _ _ _ _ _ _ Hin Hp ltac:(lia) Hrun)
    as (p2 & Hp2 & Hpos).
  exists (Product.currentStock p2). unfold stockOf. by rewrite Hp2.
Qed.

(** C4 as stated fails: a product created with stock 0 and given one
    stock-in of -5.00 ends at -5.00. *)
Lemma stock_negative_after_negative_stock_in :
  ¬ (∀ (productData : productQueries.InsertProduct) (db db1 db2 : DB)
       (p : Product.t) (calls : list Call)
       (accepted : list StockTransaction.t) (stock : Decimal),
       productQueries.create productData db = (Ok p, db1) →
       0 ≤ Product.openingStock p →
       performAll calls db1 = (accepted, db2) →
       stockOf db2 (Product.id p) = Some stock →
       0 ≤ stock).
Proof.
  intros Hclaim.
  pose (out := productQueries.create Examples.emptyBinData Examples.emptyShop).
  pose (run := performAll [Examples.stockInMinus5] out.2).
  specialize (Hclaim Examples.emptyBinData Examples.emptyShop out.2 run.2
                (Product.mk 1 "Bin" "Pieces" 0 0 1)
                [Examples.stockInMinus5] run.1 (-500)).
  enough (0 ≤ -500) by lia.
  apply Hclaim; [vm_compute; reflexivity|simpl; lia|vm_compute; reflexivity..].
Qed.

(** ** No re-check of the quantity's sign *)



(** ** The storage facade swallows rejections *)

Lemma createStockTransaction_perform (random1000 : Z) (now : Timestamp)
    (transaction : storage.Request) (db : DB) :
  storage.createStockTransaction random1000 now transaction db
  = match perform (requestCall now transaction) db with
    | (Ok r, db') => (Ok (transactionHelpers.transaction r), db')
    | (Throw e, db') =>
        (Ok (storage.fallbackTransaction random1000 now transaction), db')
    end.
Proof.
  unfold storage.createStockTransaction, requestCall, tryCatch.
  destruct (storage.type transaction); simpl;
    unfold mbind, Query_bind;
    match goal with |- context [?f db] =>
      match type of (f db) with
      | (Outcome transactionHelpers.StockResult * DB)%type =>
          destruct (f db) as [[r|e] db']
      end
    end; reflexivity.
Qed.

(** C9.  [createStockTransaction] never throws.  Whenever the engine call
    behind it throws, for a missing product, for insufficient stock or for a
    storage error such as an unknown operator, it returns the made-up
    record instead: id [random + 1] (between 1 and 1000), [previousStock]
    100.00 and [newStock] 110.00 for a stock-in, 90.00 for a stock-out;
    nothing is written.  The caller cannot tell: the same stock-out request
    accepted on one database and rejected on another returns the same
    record. *)
Theorem createStockTransaction_never_throws :
  (∀ (random1000 : Z) (now : Timestamp) (transaction : storage.Request)
     (db : DB),
     let out := storage.createStockTransaction random1000 now transaction db in
     let made_up := storage.fallbackTransaction random1000 now transaction in
     (∃ tx, out.1 = Ok tx)
     ∧ (∀ e d, perform (requestCall now transaction) db = (Throw e, d) →
          out = (Ok made_up, db))
     ∧ (products db !! storage.productId transaction = None →
          out = (Ok made_up, db))
     ∧ (∀ p, storage.type transaction = stock_out →
          products db !! storage.productId transaction = Some p →
          Product.currentStock p < storage.quantity transaction →
          out = (Ok made_up, db))
     ∧ (storage.userId transaction ∉ users db → out = (Ok made_up, db))
     ∧ StockTransaction.id made_up = random1000 + 1
     ∧ (0 ≤ random1000 < 1000 → 1 ≤ StockTransaction.id made_up ≤ 1000)
     ∧ StockTransaction.previousStock made_up = 10000
     ∧ StockTransaction.newStock made_up
       = match storage.type transaction with
         | stock_in => 11000
         | stock_out => 9000
         end)
  ∧ (let request := Examples.requestOut10 in
     (∃ r d, perform (requestCall 0 request) Examples.shop = (Ok r, d))
     ∧ (∃ e, perform (requestCall 0 request) Examples.shop5
             = (Throw e, Examples.shop5))
     ∧ (storage.createStockTransaction 0 0 request Examples.shop).1
       = (storage.createStockTransaction 0 0 request Examples.shop5).1).
Proof.
  split.
  - intros random1000 now transaction db out made_up.
    assert (Hthrow : ∀ e d,
               perform (requestCall now transaction) db = (Throw e, d) →
               out = (Ok made_up, db)).
    { intros e d Hrun. subst out. rewrite createStockTransaction_perform.
      rewrite Hrun. by apply perform_rejected in Hrun as ->. }
    split_and!.
    + subst out. rewrite createStockTransaction_perform.
      destruct (perform _ db) as [[r|e] db']; simpl; eauto.
    + exact Hthrow.
    + intros Hnone.
      apply (Hthrow (Error "Product not found") db).
      unfold requestCall. destruct (storage.type transaction); simpl.
      * by apply processStockIn_not_found.
      * by apply processStockOut_not_found.
    + intros p Hty Hp Hlt. eapply Hthrow with (d := db).
      unfold requestCall. rewrite Hty. simpl.
      rewrite (processStockOut_found _ _ _ _ _ _ _ _ _ Hp).
      by rewrite bool_decide_eq_true_2.
    + intros Hu.
      destruct (perform (requestCall now transaction) db) as [[r|e] d] eqn:Hrun.
      * destruct (perform_accepted _ _ _ _ Hrun) as (p & _ & Hin & _).
        exfalso. apply Hu. revert Hin. unfold requestCall.
        by destruct (storage.type transaction).
      * by apply (Hthrow e d).
    + reflexivity.
    + simpl. lia.
    + reflexivity.
    + simpl. by destruct (storage.type transaction).
  - simpl. split_and!.
    + eexists _, _. vm_compute. reflexivity.
    + eexists. vm_compute. reflexivity.
    + vm_compute. reflexivity.
Qed.

(** ** Current plans and shortfalls *)

Section Shortfalls.
Import weeklyStockPlanQueries.

Lemma shortageOf_Some row item :
  shortageOf row = Some item →
  ∃ p, product row = Some p
       ∧ Product.currentStock p < WeeklyStockPlan.plannedQuantity (plan row)
       ∧ item = mkShortage (WeeklyStockPlan.productId (plan row))
                  (Product.name p) (Product.currentStock p)
                  (WeeklyStockPlan.plannedQuantity (plan row))
                  (WeeklyStockPlan.id (plan row))
                  (WeeklyStockPlan.unit (plan row)).
Proof.
  unfold shortageOf. destruct (product row) as [p|]; simpl; [|done].
  case_decide; [|done]. intros [= <-]. eauto.
Qed.

Lemma shortageOf_is_Some row p :
  product row = Some p →
  is_Some (shortageOf row)
  ↔ Product.currentStock p < WeeklyStockPlan.plannedQuantity (plan row).
Proof.
  intros Hp. unfold shortageOf. rewrite Hp. simpl.
  case_decide; split; intros H'; try done; by destruct H'.
Qed.

(** The loop, in closed form: it throws as soon as a row has no product,
    and otherwise appends the descriptors of the short rows in order. *)
Lemma collectLowStock_spec rows :
  ∀ acc db,
    collectLowStock rows acc db
    = (if decide (Forall (λ row, is_Some (product row)) rows)
       then Ok (acc ++ omap shortageOf rows)%list
       else Throw (TypeError "Cannot read properties of null"),
       db).
Proof.
  induction rows as [|row rest IH]; intros acc db;
    cbn [collectLowStock omap list_omap].
  - rewrite decide_True by constructor. by rewrite app_nil_r.
  - destruct (product row) as [p|] eqn:Hp.
    + unfold shortageOf at 1. rewrite Hp. cbn [mbind option_bind].
      case_bool_decide as Hlt.
      * rewrite (decide_True (P := Product.currentStock p < _)) by done.
        rewrite IH.
        destruct (decide (Forall _ rest)) as [Hall|Hall].
        -- rewrite decide_True by (constructor; eauto).
           by rewrite <- app_assoc.
        -- rewrite decide_False; [done|].
           by intros [_ ?]%Forall_cons.
      * rewrite (decide_False (P := Product.currentStock p < _)) by done.
        rewrite IH.
        destruct (decide (Forall _ rest)) as [Hall|Hall].
        -- by rewrite decide_True by (constructor; eauto).
        -- rewrite decide_False; [done|].
           by intros [_ ?]%Forall_cons.
    + rewrite decide_False; [done|].
      intros [[? ?] _]%Forall_cons. congruence.
Qed.

Lemma checkLowStockAlerts_spec now db :
  checkLowStockAlerts now db
  = (if decide (Forall (λ row, is_Some (product row)) (currentRows now db))
     then Ok (omap shortageOf (currentRows now db))
     else Throw (TypeError "Cannot read properties of null"),
     db).
Proof.
  unfold checkLowStockAlerts, getCurrentWeekPlans, mbind, Query_bind.
  by rewrite collectLowStock_spec.
Qed.

Lemma currentRows_products now db :
  plansReferToProducts db →
  Forall (λ row, is_Some (product row)) (currentRows now db).
Proof.
  intros Hfk. apply Forall_forall. intros row Hrow.
  apply list_elem_of_fmap in Hrow as (pl & -> & Hpl).
  apply list_elem_of_filter in Hpl as [_ Hpl]. simpl. by apply Hfk.
Qed.

(** Shortage detection reads and never writes, whatever it returns. *)
Lemma checkLowStockAlerts_reads_only now db :
  (getCurrentWeekPlans now db).2 = db ∧ (checkLowStockAlerts now db).2 = db.
Proof. by rewrite checkLowStockAlerts_spec. Qed.


End Shortfalls.

(** C7.  With every plan referring to an existing product,
    [getCurrentWeekPlans] returns, in table order, exactly the active plans
    whose inclusive window contains the current date, each joined to its
    product; [checkLowStockAlerts] returns one descriptor for exactly those
    rows whose product's stock is strictly below the planned quantity, so a
    product whose stock equals the planned quantity gives none; and both
    leave the database as they found it. *)
Theorem current_week_shortfalls (now : Timestamp) (db : DB) :
  plansReferToProducts db →
  let date := weeklyStockPlanQueries.toISODate now in
  ∃ rows items,
    weeklyStockPlanQueries.getCurrentWeekPlans now db = (Ok rows, db)
    ∧ weeklyStockPlanQueries.plan <$> rows
      = filter (weeklyStockPlanQueries.isCurrent date) (weeklyStockPlans db)
    ∧ (∀ pl, pl ∈ weeklyStockPlanQueries.plan <$> rows
             ↔ pl ∈ weeklyStockPlans db
               ∧ WeeklyStockPlan.isActive pl = true
               ∧ WeeklyStockPlan.weekStartDate pl ≤ date
               ∧ date ≤ WeeklyStockPlan.weekEndDate pl)
    ∧ (∀ row, row ∈ rows →
         weeklyStockPlanQueries.product row
         = products db
             !! WeeklyStockPlan.productId (weeklyStockPlanQueries.plan row))
    ∧ weeklyStockPlanQueries.checkLowStockAlerts now db = (Ok items, db)
    ∧ items = omap shortageOf rows
    ∧ (∀ item,
         item ∈ items
         ↔ ∃ row p,
             row ∈ rows
             ∧ weeklyStockPlanQueries.product row = Some p
             ∧ Product.currentStock p
               < WeeklyStockPlan.plannedQuantity
                   (weeklyStockPlanQueries.plan row)
             ∧ item
               = weeklyStockPlanQueries.mkShortage
                   (WeeklyStockPlan.productId
                      (weeklyStockPlanQueries.plan row))
                   (Product.name p) (Product.currentStock p)
                   (WeeklyStockPlan.plannedQuantity
                      (weeklyStockPlanQueries.plan row))
                   (WeeklyStockPlan.id (weeklyStockPlanQueries.plan row))
                   (WeeklyStockPlan.unit (weeklyStockPlanQueries.plan row)))
    ∧ (∀ row p,
         row ∈ rows →
         weeklyStockPlanQueries.product row = Some p →
         Product.currentStock p
         = WeeklyStockPlan.plannedQuantity (weeklyStockPlanQueries.plan row) →
         shortageOf row = None).
Proof.
  intros Hfk date.
  exists (currentRows now db), (omap shortageOf (currentRows now db)).
  assert (Hplans : weeklyStockPlanQueries.plan <$> currentRows now db
                   = filter (weeklyStockPlanQueries.isCurrent date)
                       (weeklyStockPlans db)).
  { unfold currentRows. rewrite <- list_fmap_compose. apply list_fmap_id. }
  split_and!.
  - reflexivity.
  - exact Hplans.
  - intros pl. rewrite Hplans, list_elem_of_filter.
    unfold weeklyStockPlanQueries.isCurrent. tauto.
  - intros row (pl & -> & _)%list_elem_of_fmap. reflexivity.
  - rewrite checkLowStockAlerts_spec.
    by rewrite decide_True by by apply currentRows_products.
  - reflexivity.
  - intros item. rewrite list_elem_of_omap. split.
    + intros (row & Hrow & Hsome).
      apply shortageOf_Some in Hsome as (p & Hp & Hlt & ->).
      exists row, p. done.
    + intros (row & p & Hrow & Hp & Hlt & ->). exists row. split; [done|].
      unfold shortageOf. rewrite Hp. simpl. by rewrite decide_True.
  - intros row p _ Hp Heq. unfold shortageOf. rewrite Hp. simpl.
    rewrite decide_False; [done|lia].
Qed.

(** ** The alert engine *)

Section Alerts.
Import weeklyStockPlanQueries.

Implicit Types (item : Shortage) (items : list Shortage).
Implicit Types (alerts created : list LowStockAlert.t).

(** The existence check finds nothing exactly when no open alert is on
    the item's product and plan. *)
Lemma selectOpenAlert_cases item db :
  let found := take 1 (filter (lowStockAlertQueries.isOpenFor
                                 (productId item) (weeklyPlanId item))
                         (lowStockAlerts db)) in
  (length found = 0%nat ∧ ¬ hasOpenAlert (lowStockAlerts db) item)
  ∨ (length found ≠ 0%nat ∧ hasOpenAlert (lowStockAlerts db) item).
Proof.
  unfold hasOpenAlert.
  destruct (filter _ (lowStockAlerts db)) as [|a l] eqn:Hf; simpl.
  - left. split; [done|]. intros (a & Ha & Hopen).
    by eapply filter_nil_not_elem_of.
  - right. split; [done|]. exists a.
    assert (Hin : a ∈ filter (lowStockAlertQueries.isOpenFor
                                (productId item) (weeklyPlanId item))
                        (lowStockAlerts db)) by (rewrite Hf; left).
    apply list_elem_of_filter in Hin. tauto.
Qed.

Lemma hasOpenAlert_mono alerts created item :
  hasOpenAlert alerts item → hasOpenAlert (alerts ++ created) item.
Proof.
  intros (a & Ha & Hopen). exists a. split; [|done].
  apply elem_of_app. by left.
Qed.

Lemma withLowStockAlerts_nil db :
  db = withLowStockAlerts db (lowStockAlerts db ++ [])
         (lowStockAlerts_seq db + Z.of_nat 0).
Proof.
  destruct db. unfold withLowStockAlerts. simpl.
  by rewrite app_nil_r, Z.add_0_r.
Qed.


(** What a run of the loop that returned has done: it appended the
    alerts it returns, each the alert of an item that had no open alert,
    and afterwards every item has one. *)
Lemma createMissingAlerts_returned now items :
  ∀ acc db result db',
    lowStockAlertQueries.createMissingAlerts now items acc db
    = (Ok result, db') →
    ∃ created,
      result = (acc ++ created)%list
      ∧ db' = withLowStockAlerts db (lowStockAlerts db ++ created)
                (lowStockAlerts_seq db + Z.of_nat (length created))
      ∧ Forall (λ a, ∃ item,
                  item ∈ items
                  ∧ ¬ hasOpenAlert (lowStockAlerts db) item
                  ∧ a = alertFor now item (LowStockAlert.id a)) created
      ∧ (∀ item, item ∈ items →
           hasOpenAlert (lowStockAlerts db ++ created) item)
      ∧ (∀ item, item ∈ items →
           ¬ hasOpenAlert (lowStockAlerts db) item →
           hasOpenAlert created item).
Proof.
  induction items as [|item rest IH]; intros acc db result db' Hrun.
  - injection Hrun as <- <-. exists []. rewrite app_nil_r.
    split_and!; [done|apply withLowStockAlerts_nil|constructor|..];
      intros item Hin; by apply elem_of_nil in Hin.
  - cbn [lowStockAlertQueries.createMissingAlerts] in Hrun.
    unfold mbind, Query_bind, lowStockAlertQueries.selectOpenAlert in Hrun.
    destruct (selectOpenAlert_cases item db) as [[Hlen Hnone]|[Hlen Hhas]].
    + rewrite bool_decide_eq_true_2 in Hrun by done.
      unfold lowStockAlertQueries.create in Hrun. simpl in Hrun.
      destruct (decide (is_Some _)); [|discriminate].
      destruct (decide (_ ∈ _)); [|discriminate].
      apply IH in Hrun as (created & -> & -> & Hfrom & Hall & Hnew).
      simpl in Hfrom, Hall, Hnew |- *.
      set (row := LowStockAlert.mk (lowStockAlerts_seq db) _ _ _ _ _ _ _ _)
        in *.
      assert (Hrow : lowStockAlertQueries.isOpenFor (productId item)
                       (weeklyPlanId item) row) by done.
      exists (row :: created). split_and!.
      * by rewrite <- app_assoc.
      * unfold withLowStockAlerts. simpl. rewrite <- app_assoc. simpl.
        f_equal. lia.
      * constructor.
        -- exists item. split_and!; [left|done|done].
        -- eapply Forall_impl; [exact Hfrom|]. simpl.
           intros a (item' & Hin & Hno & Ha). exists item'.
           split_and!; [by right| |done].
           intros Hopen. apply Hno. by apply hasOpenAlert_mono.
      * intros item' [->|Hin]%elem_of_cons.
        -- exists row. split; [|done].
           apply elem_of_app. right. left.
        -- specialize (Hall item' Hin).
           by rewrite <- app_assoc in Hall.
      * intros item' [->|Hin]%elem_of_cons Hno.
        -- exists row. split; [left|done].
        -- destruct (decide (lowStockAlertQueries.isOpenFor
                               (productId item') (weeklyPlanId item') row))
             as [Hsame|Hother].
           ++ exists row. split; [left|done].
           ++ destruct (Hnew item' Hin) as (a & Ha & Hopen).
              { intros (a & [Ha| ->%list_elem_of_singleton]%elem_of_app
                        & Hopen); [|done].
                apply Hno. by exists a. }
              exists a. split; [by right|done].
    + rewrite bool_decide_eq_false_2 in Hrun by done.
      apply IH in Hrun as (created & -> & -> & Hfrom & Hall & Hnew).
      exists created. split_and!; [done|done| | |].
      * eapply Forall_impl; [exact Hfrom|]. simpl.
        intros a (item' & Hin & Hno & Ha). exists item'.
        split_and!; [by right|done|done].
      * intros item' [->|Hin]%elem_of_cons; [|by apply Hall].
        by apply hasOpenAlert_mono.
      * intros item' [->|Hin]%elem_of_cons Hno; [done|by apply Hnew].
Qed.

End Alerts.

Section Checking.
Import weeklyStockPlanQueries.

(** The loop returns when every item points at an existing product and
    an existing plan. *)
Lemma createMissingAlerts_returns now (items : list Shortage) :
  ∀ acc db,
    (∀ item, item ∈ items →
       is_Some (products db !! productId item)
       ∧ weeklyPlanId item ∈ WeeklyStockPlan.id <$> weeklyStockPlans db) →
    ∃ result db',
      lowStockAlertQueries.createMissingAlerts now items acc db
      = (Ok result, db').
Proof.
  induction items as [|item rest IH]; intros acc db Hfk.
  - by eexists _, _.
  - cbn [lowStockAlertQueries.createMissingAlerts].
    unfold mbind, Query_bind, lowStockAlertQueries.selectOpenAlert.
    case_bool_decide.
    + destruct (Hfk item) as [Hprod Hplan]; [left|].
      unfold lowStockAlertQueries.create. simpl.
      rewrite !decide_True by done.
      apply IH. intros item' Hin. apply Hfk. by right.
    + apply IH. intros item' Hin. apply Hfk. by right.
Qed.

(** The two steps of a check that returned. *)
Lemma processLowStockChecking_steps now db alerts db' :
  lowStockAlertQueries.processLowStockChecking now db = (Ok alerts, db') →
  let items := omap shortageOf (currentRows now db) in
  checkLowStockAlerts now db = (Ok items, db)
  ∧ lowStockAlertQueries.createMissingAlerts now items [] db
    = (Ok alerts, db').
Proof.
  unfold lowStockAlertQueries.processLowStockChecking, mbind, Query_bind.
  rewrite checkLowStockAlerts_spec.
  destruct (decide (Forall _ _)); [done|discriminate].
Qed.

(** The shortages of the current rows point at rows that exist. *)
Lemma currentItems_refer now db (item : Shortage) :
  item ∈ omap shortageOf (currentRows now db) →
  is_Some (products db !! productId item)
  ∧ weeklyPlanId item ∈ WeeklyStockPlan.id <$> weeklyStockPlans db.
Proof.
  intros (row & Hrow & Hsome)%list_elem_of_omap.
  apply shortageOf_Some in Hsome as (p & Hp & _ & ->). simpl.
  apply list_elem_of_fmap in Hrow as (pl & -> & Hpl).
  apply list_elem_of_filter in Hpl as [_ Hpl]. simpl in *.
  split; [by rewrite Hp|]. by apply list_elem_of_fmap_2.
Qed.

(** A check returns as soon as the current plans have their products. *)
Lemma processLowStockChecking_returns_current now db :
  Forall (λ row, is_Some (product row)) (currentRows now db) →
  ∃ alerts db',
    lowStockAlertQueries.processLowStockChecking now db = (Ok alerts, db').
Proof.
  intros Hrows.
  unfold lowStockAlertQueries.processLowStockChecking, mbind, Query_bind.
  rewrite checkLowStockAlerts_spec, decide_True by done.
  apply createMissingAlerts_returns, currentItems_refer.
Qed.

Lemma processLowStockChecking_returns now db :
  plansReferToProducts db →
  ∃ alerts db',
    lowStockAlertQueries.processLowStockChecking now db = (Ok alerts, db').
Proof.
  intros Hfk.
  by apply processLowStockChecking_returns_current, currentRows_products.
Qed.

(** A check that throws has not written anything: it can only throw while
    reading the plans. *)
Lemma processLowStockChecking_throws now db e db' :
  lowStockAlertQueries.processLowStockChecking now db = (Throw e, db') →
  db' = db.
Proof.
  destruct (decide (Forall (λ row, is_Some (product row))
                      (currentRows now db))) as [Hrows|Hrows].
  - destruct (processLowStockChecking_returns_current now db Hrows)
      as (alerts & db'' & ->). discriminate.
  - unfold lowStockAlertQueries.processLowStockChecking, mbind, Query_bind.
    rewrite checkLowStockAlerts_spec, decide_False by done.
    by intros [= _ <-].
Qed.

End Checking.



(** C10.  The check looks at the plan's active flag only.  An active plan
    whose window contains the current date and whose product has been
    soft-deleted ([isActive] is 0) is still evaluated: when the product's
    stock is below the planned quantity its shortage is reported and the
    check leaves an open alert on the inactive product and the plan, which
    it has created itself, and returns, unless one was open already. *)
Theorem inactive_product_still_alerted (now : Timestamp) (db : DB)
    (pl : WeeklyStockPlan.t) (p : Product.t) :
  plansReferToProducts db →
  pl ∈ weeklyStockPlans db →
  WeeklyStockPlan.isActive pl = true →
  WeeklyStockPlan.weekStartDate pl ≤ weeklyStockPlanQueries.toISODate now →
  weeklyStockPlanQueries.toISODate now ≤ WeeklyStockPlan.weekEndDate pl →
  products db !! WeeklyStockPlan.productId pl = Some p →
  Product.isActive p = 0 →
  Product.currentStock p < WeeklyStockPlan.plannedQuantity pl →
  let open a :=
    LowStockAlert.productId a = WeeklyStockPlan.productId pl
    ∧ LowStockAlert.weeklyPlanId a = WeeklyStockPlan.id pl
    ∧ LowStockAlert.isResolved a = false in
  ∃ items alerts db',
    weeklyStockPlanQueries.checkLowStockAlerts now db = (Ok items, db)
    ∧ weeklyStockPlanQueries.mkShortage (WeeklyStockPlan.productId pl)
        (Product.name p) (Product.currentStock p)
        (WeeklyStockPlan.plannedQuantity pl) (WeeklyStockPlan.id pl)
        (WeeklyStockPlan.unit pl) ∈ items
    ∧ lowStockAlertQueries.processLowStockChecking now db = (Ok alerts, db')
    ∧ lowStockAlerts db' = (lowStockAlerts db ++ alerts)%list
    ∧ (∃ a, a ∈ lowStockAlerts db' ∧ open a)
    ∧ ((∀ a, a ∈ lowStockAlerts db → ¬ open a) → ∃ a, a ∈ alerts ∧ open a).
Proof.
  intros Hfk Hpl Hactive Hstart Hend Hp Hdeleted Hlt open.
  destruct (processLowStockChecking_returns now db Hfk)
    as (alerts & db' & Hrun).
  pose proof (processLowStockChecking_steps _ _ _ _ Hrun) as [Hcheck Hloop].
  set (item := weeklyStockPlanQueries.mkShortage _ _ _ _ _ _).
  assert (Hitem : item ∈ omap shortageOf (currentRows now db)).
  { apply list_elem_of_omap.
    exists (weeklyStockPlanQueries.mkDetails pl (Some p)). split.
    - unfold currentRows. apply list_elem_of_fmap. exists pl.
      split; [by rewrite Hp|]. by apply list_elem_of_filter.
    - unfold shortageOf. simpl. by rewrite decide_True. }
  apply createMissingAlerts_returned in Hloop
    as (created & -> & -> & _ & Hall & Hnew).
  eexists _, _, _. split_and!; [done..| |].
  - destruct (Hall item Hitem) as (a & Ha & Hopen). by exists a.
  - intros Hfresh. destruct (Hnew item Hitem) as (a & Ha & Hopen).
    + intros (a & Ha & Hopen). by apply (Hfresh a).
    + by exists a.
Qed.

(** ** The scenarios of the design notes, run *)

Example numberToString_whole : numberToString 15000 = "150".
Proof. reflexivity. Qed.

Example numberToString_fraction :
  numberToString 1250 = "12.5" ∧ numberToString 1205 = "12.05"
  ∧ numberToString (-5) = "-0.05".
Proof. by vm_compute. Qed.

(** Scenario 3: 10.00 asked of an empty stock. *)
Example stock_out_of_nothing :
  let empty := mkDB {[ 7 ]}
                 {[ 1 := Product.setCurrentStock Examples.rice 0 ]}
                 2 [] 1 [] [] 1 in
  perform Examples.stockOut10 empty
  = (Throw (Error "Insufficient stock. Available: 0, Requested: 10"), empty).
Proof. vm_compute. reflexivity. Qed.

(** Scenarios 1 to 3 in a row end with Rice at 0.00 and two transactions
    logged. *)
Example scenario_run :
  stockOf (performAll Examples.scenario Examples.shop).2 1 = Some 0
  ∧ length (performAll Examples.scenario Examples.shop).1 = 2%nat.
Proof. by vm_compute. Qed.

(** Scenario 6: once the alert is resolved and the shortage persists, the
    next check creates a new alert. *)
Example resolved_alert_is_raised_again :
  let resolved := (lowStockAlertQueries.resolve Examples.laterOnDay103 1
                     Examples.plannedShopChecked).2 in
  (lowStockAlertQueries.processLowStockChecking Examples.laterOnDay103
     resolved).1
  = Ok [LowStockAlert.mk 2 1 1 8000 20000 critical false
          Examples.laterOnDay103 None].
Proof. vm_compute. reflexivity. Qed.

(** Scenario 5: at 150.00 against 200.00 planned the alert is low. *)
Example alert_level_low :
  lowStockAlertQueries.levelOf
    (weeklyStockPlanQueries.mkShortage 1 "Rice" 15000 20000 1 "KG") = low
  ∧ lowStockAlertQueries.levelOf
      (weeklyStockPlanQueries.mkShortage 1 "Rice" 10000 20000 1 "KG")
    = critical
  ∧ lowStockAlertQueries.levelOf
      (weeklyStockPlanQueries.mkShortage 1 "Rice" 10001 20000 1 "KG") = low.
Proof. by vm_compute. Qed.

(** ** The theorems at work on the example shop *)

Lemma processStockOut_insufficient_stock_witness :
  products Examples.shop150 !! 1 = Some Examples.rice150
  ∧ stockOf (transactionHelpers.processStockOut 1 7 15000 0 (Some "SO-1")
               None None Examples.shop150).2 1 = Some 0.
Proof.
  split; [reflexivity|].
  destruct (processStockOut_insufficient_stock Examples.shop150 1 7 15000 0
              (Some "SO-1") None None Examples.rice150 eq_refl)
    as (_ & _ & _ & Hboundary).
  destruct Hboundary as (r & _ & Hzero & _);
    [vm_compute; set_solver|reflexivity|exact Hzero].
Defined.



Lemma stock_never_negative_witness :
  productQueries.create Examples.riceData Examples.emptyShop
  = (Ok Examples.rice, Examples.shop)
  ∧ 0 ≤ Product.openingStock Examples.rice
  ∧ Forall (λ c, callType c = stock_in → 0 ≤ callQuantity c)
      Examples.scenario
  ∧ ∃ stock, stockOf (performAll Examples.scenario Examples.shop).2 1
             = Some stock ∧ 0 ≤ stock.
Proof.
  assert (Hcreate : productQueries.create Examples.riceData Examples.emptyShop
                    = (Ok Examples.rice, Examples.shop))
    by (vm_compute; reflexivity).
  assert (Hopen : 0 ≤ Product.openingStock Examples.rice) by (simpl; lia).
  assert (Hin : Forall (λ c, callType c = stock_in → 0 ≤ callQuantity c)
                  Examples.scenario)
    by (repeat constructor; simpl; lia).
  split_and!; [exact Hcreate|exact Hopen|exact Hin|].
  exact (stock_never_negative _ _ _ _ _ Examples.scenario _ Hcreate Hopen Hin
           (surjective_pairing _)).
Defined.


Lemma current_week_shortfalls_witness :
  plansReferToProducts Examples.plannedShop
  ∧ ∃ rows items,
      weeklyStockPlanQueries.getCurrentWeekPlans Examples.day103
        Examples.plannedShop = (Ok rows, Examples.plannedShop)
      ∧ weeklyStockPlanQueries.checkLowStockAlerts Examples.day103
          Examples.plannedShop = (Ok items, Examples.plannedShop)
      ∧ items = omap shortageOf rows.
Proof.
  assert (Hfk : plansReferToProducts Examples.plannedShop).
  { intros pl Hpl. apply list_elem_of_singleton in Hpl. subst pl.
    eexists. reflexivity. }
  split; [exact Hfk|].
  destruct (current_week_shortfalls Examples.day103 Examples.plannedShop Hfk)
    as (rows & items & Hrows & _ & _ & _ & Hitems & Heq & _).
  exists rows, items. split_and!; assumption.
Defined.


Lemma inactive_product_still_alerted_witness :
  products Examples.plannedShopRiceDeleted !! 1 = Some Examples.rice80Deleted
  ∧ Product.isActive Examples.rice80Deleted = 0
  ∧ ∃ alerts db',
      lowStockAlertQueries.processLowStockChecking Examples.day103
        Examples.plannedShopRiceDeleted = (Ok alerts, db')
      ∧ ∃ a, a ∈ alerts ∧ LowStockAlert.productId a = 1.
Proof.
  split_and!; [reflexivity..|].
  destruct (inactive_product_still_alerted Examples.day103
              Examples.plannedShopRiceDeleted Examples.ricePlan
              Examples.rice80Deleted)
    as (items & alerts & db' & _ & _ & Hrun & _ & _ & Hnew).
  - intros pl Hpl. apply list_elem_of_singleton in Hpl. subst pl.
    eexists. reflexivity.
  - left.
  - reflexivity.
  - vm_compute. discriminate.
  - vm_compute. discriminate.
  - reflexivity.
  - reflexivity.
  - simpl. lia.
  - exists alerts, db'. split; [exact Hrun|].
    destruct Hnew as (a & Ha & Hprod & _).
    + intros a Ha. by apply elem_of_nil in Ha.
    + exists a. split; assumption.
Defined.


(** * The rest of the server: properties *)

(** ** What an engine call leaves alone *)

(** An engine call, accepted or not, writes to one product's stock and to
    the log: users, plans, alerts, the products' counter, every other
    product and the other columns of its own product stay as they were. *)
Theorem perform_frame (c : Call) (db : DB) :
  let db' := (perform c db).2 in
  users db' = users db
  ∧ weeklyStockPlans db' = weeklyStockPlans db
  ∧ lowStockAlerts db' = lowStockAlerts db
  ∧ lowStockAlerts_seq db' = lowStockAlerts_seq db
  ∧ products_seq db' = products_seq db
  ∧ (∀ pid, pid ≠ callProduct c → products db' !! pid = products db !! pid)
  ∧ (∀ pid, is_Some (products db' !! pid) ↔ is_Some (products db !! pid))
  ∧ (∀ p p', products db !! callProduct c = Some p →
             products db' !! callProduct c = Some p' →
             Product.id p' = Product.id p
             ∧ Product.name p' = Product.name p
             ∧ Product.unit p' = Product.unit p
             ∧ Product.openingStock p' = Product.openingStock p
             ∧ Product.isActive p' = Product.isActive p).
Proof.
  intros db'. subst db'.
  destruct (perform c db) as [[r|e] db'] eqn:Hrun; simpl.
  - destruct (perform_accepted _ _ _ _ Hrun)
      as (p & Hp & _ & _ & _ & _ & _ & _ & _ & _ & ->). simpl.
    split_and!; try done.
    + intros pid Hne. by rewrite lookup_insert_ne.
    + intros pid. destruct (decide (callProduct c = pid)) as [<-|Hne].
      * rewrite lookup_insert_eq, Hp. split; eauto.
      * by rewrite lookup_insert_ne.
    + intros p0 p'. rewrite lookup_insert_eq, Hp. by intros [= <-] [= <-].
  - apply perform_rejected in Hrun as ->.
    split_and!; try done. intros p p' Hp Hp'. by simplify_eq.
Qed.

(** ** The log stays well formed *)

Lemma perform_logWellFormed (c : Call) (db : DB) :
  logWellFormed db → logWellFormed (perform c db).2.
Proof.
  intros [Hsorted Hall].
  destruct (perform c db) as [[r|e] db'] eqn:Hrun; simpl.
  - destruct (perform_accepted _ _ _ _ Hrun)
      as (p & Hp & Hu & _ & Hpid & _ & _ & _ & _ & _ & Hdb').
    assert (Hid : StockTransaction.id (transactionHelpers.transaction r)
                  = stockTransactions_seq db).
    { revert Hrun. destruct c as [pid uid q d rem po oq ou|pid uid q d so oq ou];
        simpl in *.
      - rewrite (processStockIn_found _ _ _ _ _ _ _ _ _ _ Hp).
        rewrite decide_True by done. by intros [= <- _].
      - rewrite (processStockOut_found _ _ _ _ _ _ _ _ _ Hp).
        case_bool_decide; [done|].
        rewrite decide_True by done. by intros [= <- _]. }
    assert (Huser : StockTransaction.userId (transactionHelpers.transaction r)
                    = callUser c).
    { revert Hrun. destruct c as [pid uid q d rem po oq ou|pid uid q d so oq ou];
        simpl in *.
      - rewrite (processStockIn_found _ _ _ _ _ _ _ _ _ _ Hp).
        rewrite decide_True by done. by intros [= <- _].
      - rewrite (processStockOut_found _ _ _ _ _ _ _ _ _ Hp).
        case_bool_decide; [done|].
        rewrite decide_True by done. by intros [= <- _]. }
    rewrite Hdb'. split; simpl.
    + apply StronglySorted_app_2; [|done|repeat constructor].
      intros a b Ha ->%list_elem_of_singleton. rewrite Hid.
      by apply Hall.
    + intros t [Ht| ->%list_elem_of_singleton]%elem_of_app.
      * destruct (Hall t Ht) as (Hlt & [pt Hpt] & Hut).
        split_and!; [lia| |done].
        destruct (decide (callProduct c = StockTransaction.productId t))
          as [<-|Hne].
        -- rewrite lookup_insert_eq. eauto.
        -- rewrite lookup_insert_ne by done. eauto.
      * rewrite Hid, Hpid, Huser, lookup_insert_eq.
        split_and!; [lia|eauto|done].
  - apply perform_rejected in Hrun as ->. by split.
Qed.

(** Whatever calls are made, the ids of the logged transactions grow
    strictly along the log, hence are pairwise different, stay below the
    counter, and every logged transaction refers to a product and a user
    that exist. *)
Theorem performAll_logWellFormed (calls : list Call) (db : DB) :
  logWellFormed db → logWellFormed (performAll calls db).2.
Proof.
  revert db. induction calls as [|c rest IH]; intros db Hwf; [done|].
  simpl. pose proof (perform_logWellFormed c db Hwf) as Hstep.
  destruct (perform c db) as [[r|e] db']; simpl in Hstep.
  - specialize (IH db' Hstep). by destruct (performAll rest db').
  - by apply IH.
Qed.

(** ** A stock-in undone by a stock-out *)


(** ** Switching a product off, and removing it *)

(** [DELETE /api/products/:id] always answers 204, also for an id no
    product has; it only clears the product's active flag: stock, the other
    columns, the other products and the log stay. *)
Theorem deleteProduct_switches_off (u : routes.ReqUser) (id : Z) (db : DB) :
  routes.role u ∈ [routes.super_admin; routes.master_inventory_handler] →
  let out := routes.deleteProduct (Some u) id db in
  out.1 = Ok (routes.mkResponse 204 routes.NoContent)
  ∧ stockTransactions out.2 = stockTransactions db
  ∧ (products db !! id = None → out.2 = db)
  ∧ (∀ p, products db !! id = Some p →
          products out.2 !! id = Some (Product.setIsActive p 0))
  ∧ (∀ j, j ≠ id → products out.2 !! j = products db !! j)
  ∧ stockOf out.2 id = stockOf db id.
Proof.
  intros Hrole out. subst out.
  unfold routes.deleteProduct, routes.requireRole.
  rewrite decide_True by done.
  unfold tryCatch, mbind, mret, Query_bind, Query_ret, productQueries.delete.
  unfold stockOf.
  destruct (products db !! id) as [p|] eqn:Hp; simpl.
  - split_and!; try done.
    + intros p' [= <-]. apply lookup_insert_eq.
    + intros j Hne. by rewrite lookup_insert_ne.
    + by rewrite lookup_insert_eq.
  - split_and!; try done. by rewrite Hp.
Qed.




(** A [hardDelete] that goes through removes the product and nothing else,
    and leaves no reference dangling: plans and the log still point at
    products that exist. *)
Theorem hardDelete_keeps_references (id : Z) (db db' : DB) :
  productQueries_hardDelete id db = (Ok (), db') →
  products db' !! id = None
  ∧ (∀ j, j ≠ id → products db' !! j = products db !! j)
  ∧ stockTransactions db' = stockTransactions db
  ∧ weeklyStockPlans db' = weeklyStockPlans db
  ∧ lowStockAlerts db' = lowStockAlerts db
  ∧ (plansReferToProducts db → plansReferToProducts db')
  ∧ (logWellFormed db → logWellFormed db').
Proof.
  unfold productQueries_hardDelete.
  destruct (decide (id ∈ StockTransaction.productId <$> _)) as [|Hlog];
    [discriminate|].
  destruct (decide (id ∈ WeeklyStockPlan.productId <$> _)) as [|Hplans];
    [discriminate|].
  destruct (decide (id ∈ LowStockAlert.productId <$> _)); [discriminate|].
  intros [= <-]. simpl. split_and!; try done.
  - apply lookup_delete_eq.
  - intros j Hne. by rewrite lookup_delete_ne.
  - intros Hfk pl Hpl. simpl in *. rewrite lookup_delete_ne; [by apply Hfk|].
    intros Heq. apply Hplans. rewrite Heq. by apply list_elem_of_fmap_2.
  - intros [Hsorted Hall]. split; [done|]. simpl. intros t Ht.
    destruct (Hall t Ht) as (? & ? & ?). split_and!; [done| |done].
    rewrite lookup_delete_ne; [done|].
    intros Heq. apply Hlog. rewrite Heq. by apply list_elem_of_fmap_2.
Qed.

(** ** The transaction log, queried *)

Section TransactionQueries.
Import stockTransactionQueries.

#[local] Instance latestFirst_total : Total latestFirst.
Proof. intros a b. unfold latestFirst. lia. Qed.

Lemma transaction_join (db : DB) (l : list StockTransaction.t) :
  transaction
    <$> ((λ t, mkDetails t (products db !! StockTransaction.productId t)
                 (if decide (StockTransaction.userId t ∈ users db)
                  then Some (StockTransaction.userId t) else None)) <$> l)
  = l.
Proof. rewrite <- list_fmap_compose. apply list_fmap_id. Qed.

(** [getAllWithDetails] never throws and writes nothing.  It returns, latest
    first, the logged transactions that satisfy every filter given, each
    joined to its product; a [productId] or [userId] filter of 0 counts as
    not given. *)
Theorem getAllWithDetails_filters (filters : option Filters) (db : DB) :
  let f := default noFilters filters in
  ∃ rows,
    getAllWithDetails filters db = (Ok rows, db)
    ∧ Sorted latestFirst rows
    ∧ transaction <$> rows ≡ₚ filter (matches f) (stockTransactions db)
    ∧ (∀ row, row ∈ rows →
         product row
         = products db !! StockTransaction.productId (transaction row))
    ∧ (∀ t, t ∈ transaction <$> rows
            ↔ t ∈ stockTransactions db
              ∧ (∀ id, productId f = Some id → id ≠ 0 →
                       StockTransaction.productId t = id)
              ∧ (∀ ty, type f = Some ty → StockTransaction.type t = ty)
              ∧ (∀ id, userId f = Some id → id ≠ 0 →
                       StockTransaction.userId t = id)
              ∧ (∀ d, fromDate f = Some d →
                      d ≤ StockTransaction.transactionDate t)
              ∧ (∀ d, toDate f = Some d →
                      StockTransaction.transactionDate t ≤ d)).
Proof.
  intros f. eexists. split; [reflexivity|].
  fold f.
  set (joined := (λ t, mkDetails t _ _) <$> filter (matches f) _).
  assert (Hperm : transaction <$> merge_sort latestFirst joined
                  ≡ₚ filter (matches f) (stockTransactions db)).
  { rewrite merge_sort_Permutation. subst joined.
    by rewrite transaction_join. }
  split_and!.
  - apply Sorted_merge_sort. apply _.
  - exact Hperm.
  - intros row Hrow. rewrite merge_sort_Permutation in Hrow.
    apply list_elem_of_fmap in Hrow as (t & -> & _). done.
  - intros t. rewrite Hperm, list_elem_of_filter.
    unfold matches, condition.
    destruct f as [[[|pid|pid]|] [ty|] [[|uid|uid]|] [d1|] [d2|]]; simpl;
      (split; [intros [(?&?&?&?&?) ?]; split_and!; try done;
               intros; simplify_eq; done
              |intros (?&Hp&Ht&Hu&Hf&Ht'); split; [|done]; split_and!;
               try done; eauto; first [by apply Hp|by apply Hu]]).
Qed.

(** The edge of the truthiness test: asking for the transactions of product
    0, or of user 0, returns all of them. *)
Theorem zero_id_filters_nothing (db : DB) :
  getByProductId 0 db = getAllWithDetails None db
  ∧ getByUserId 0 db = getAllWithDetails None db.
Proof. split; reflexivity. Qed.

(** The transaction of an accepted call is found under its product, joined
    to the product at its new stock. *)
Theorem accepted_call_is_listed (c : Call) (db db' : DB)
    (r : transactionHelpers.StockResult) :
  perform c db = (Ok r, db') →
  callProduct c ≠ 0 →
  ∃ rows row p',
    getByProductId (callProduct c) db' = (Ok rows, db')
    ∧ row ∈ rows
    ∧ transaction row = transactionHelpers.transaction r
    ∧ product row = Some p'
    ∧ Product.currentStock p'
      = StockTransaction.newStock (transactionHelpers.transaction r)
    ∧ user row = Some (callUser c).
Proof.
  intros Hrun Hne.
  destruct (perform_accepted _ _ _ _ Hrun)
    as (p & Hp & Hu & _ & Hpid & _ & _ & _ & Hnew & _ & Hdb').
  assert (Huser : StockTransaction.userId (transactionHelpers.transaction r)
                  = callUser c).
  { revert Hrun. destruct c as [pid uid q d rem po oq ou|pid uid q d so oq ou];
      simpl in *.
    - rewrite (processStockIn_found _ _ _ _ _ _ _ _ _ _ Hp).
      rewrite decide_True by done. by intros [= <- _].
    - rewrite (processStockOut_found _ _ _ _ _ _ _ _ _ Hp).
      case_bool_decide; [done|].
      rewrite decide_True by done. by intros [= <- _]. }
  eexists _, _, _.
  split; [reflexivity|]. split_and!.
  - rewrite merge_sort_Permutation. apply list_elem_of_fmap.
    exists (transactionHelpers.transaction r). split; [reflexivity|].
    apply list_elem_of_filter. split.
    + unfold matches, condition. simpl.
      destruct (callProduct c) eqn:Hc; [done|..]; simpl; by rewrite Hpid.
    + rewrite Hdb'. simpl. apply elem_of_app. right. left.
  - done.
  - simpl. rewrite Hpid, Hdb'. simpl. apply lookup_insert_eq.
  - simpl. by rewrite Hnew.
  - simpl. rewrite Huser, decide_True; [done|]. by rewrite Hdb'.
Qed.

End TransactionQueries.

(** ** The batch routes *)







(** A caller without one of the roles of a route is answered 403 and
    nothing is written; so is a request without a user. *)
Theorem requireRole_refuses (allowedRoles : list routes.UserRole)
    (user : option routes.ReqUser)
    (next : routes.ReqUser → Query routes.Response) (db : DB) :
  (∀ u, user = Some u → routes.role u ∉ allowedRoles) →
  routes.requireRole allowedRoles user next db
  = (Ok (routes.mkResponse 403 (routes.Message "Insufficient permissions")),
     db).
Proof.
  intros Hno. unfold routes.requireRole. destruct user as [u|]; [|done].
  rewrite decide_False; [done|]. by apply Hno.
Qed.

(** ** The dashboard *)

Section Dashboard.
Import dashboardQueries.

#[local] Instance lowestStockFirst_total : Total lowestStockFirst.
Proof. intros a b. unfold lowestStockFirst. lia. Qed.

#[local] Instance sumOf_Permutation {A} (column : A → Decimal) :
  Proper ((≡ₚ) ==> (=)) (sumOf column).
Proof.
  intros l1 l2 Hperm. unfold sumOf.
  induction Hperm; simpl; lia.
Qed.




(** The dashboard's counts are ordered: the low-stock products are among
    the active ones, the active ones among all; and the low-stock count is
    the number of products [getLowStock] lists at its default threshold. *)
Theorem getStats_counts (today tomorrow : Timestamp) (db : DB) :
  ∃ stats low,
    getStats today tomorrow db = (Ok stats, db)
    ∧ productQueries_getLowStock defaultThreshold db = (Ok low, db)
    ∧ 0 ≤ lowStockProducts stats
    ∧ lowStockProducts stats ≤ activeProducts stats
    ∧ activeProducts stats ≤ totalProducts stats
    ∧ totalProducts stats = Z.of_nat (size (products db))
    ∧ lowStockProducts stats = Z.of_nat (length low).
Proof.
  eexists _, _. split; [reflexivity|]. split; [reflexivity|]. simpl.
  unfold countOf, defaultThreshold.
  rewrite merge_sort_Permutation.
  rewrite <- (list_filter_filter (λ p, Product.currentStock p < 1000)
                (λ p, Product.isActive p = 1)).
  pose proof (length_filter (λ p, Product.currentStock p < 1000)
                (filter (λ p, Product.isActive p = 1) (productRows db))).
  pose proof (length_filter (λ p, Product.isActive p = 1) (productRows db)).
  split_and!; [lia..| |done].
  unfold productRows. by rewrite length_fmap, length_map_to_list.
Qed.

(** [getLowStock] lists, lowest stock first, exactly the active products
    whose stock is strictly below the threshold: a product switched off, or
    one whose stock equals the threshold, is not listed. *)
Theorem getLowStock_lists (threshold : Decimal) (db : DB) :
  ∃ low,
    productQueries_getLowStock threshold db = (Ok low, db)
    ∧ Sorted lowestStockFirst low
    ∧ ∀ p, p ∈ low
           ↔ (∃ id, products db !! id = Some p)
             ∧ Product.isActive p = 1
             ∧ Product.currentStock p < threshold.
Proof.
  eexists. split; [reflexivity|]. split.
  - apply Sorted_merge_sort. apply _.
  - intros p. rewrite merge_sort_Permutation, list_elem_of_filter.
    unfold productRows. rewrite list_elem_of_fmap. split.
    + intros [[? ?] ([id p'] & -> & Hin)]. simpl in *.
      apply elem_of_map_to_list in Hin. eauto.
    + intros ([id Hid] & ? & ?). split; [done|].
      exists (id, p). split; [done|]. by apply elem_of_map_to_list.
Qed.


End Dashboard.

(** The ranges of the stock distribution leave gaps.  A product is counted
    in at most one range, and in one exactly when it is active and its
    stock is 0, or from 1 to 10, 11 to 50, 51 to 100 or 101 to 999999 units;
    so the counts add up to no more than the number of active products,
    and to less as soon as one active product has a stock in a gap, such as
    0.50 or 10.50. *)
Theorem stockDistribution_gaps (db : DB) :
  let active := filter (λ p, Product.isActive p = 1) (productRows db) in
  ∃ distribution,
    dashboardQueries.stockDistribution db = (Ok distribution, db)
    ∧ distribution.*1 = ["0"; "1-10"; "11-50"; "51-100"; "100+"]
    ∧ sumOf snd distribution
      = countOf (filter (λ p, inSomeRange (Product.currentStock p)) active)
    ∧ sumOf snd distribution ≤ countOf active
    ∧ ∀ p, p ∈ active → ¬ inSomeRange (Product.currentStock p) →
           sumOf snd distribution < countOf active.
Proof.
  intros active. eexists. split; [reflexivity|]. split; [reflexivity|].
  assert (Hsum :
    sumOf snd
      ((λ '(range, min, max),
          (range,
           countOf (filter (λ p, Product.isActive p = 1
                                 ∧ min * 100 ≤ Product.currentStock p
                                 ∧ Product.currentStock p ≤ max * 100)
                      (productRows db))))
         <$> dashboardQueries.stockRanges)
    = countOf (filter (λ p, inSomeRange (Product.currentStock p)) active)).
  { subst active. unfold countOf, sumOf. cbn.
    induction (productRows db) as [|p rows IH]; [done|].
    rewrite !filter_cons.
    destruct (decide (Product.isActive p = 1)) as [Ha|Ha].
    - rewrite !filter_cons. unfold inSomeRange in *.
      repeat case_decide; simpl length; lia.
    - repeat case_decide; simpl length; lia. }
  rewrite Hsum. unfold countOf. split_and!; [done| |].
  - pose proof (length_filter (λ p, inSomeRange (Product.currentStock p))
                  active). lia.
  - intros p Hp Hgap.
    pose proof (length_filter_lt
                  (λ p, inSomeRange (Product.currentStock p)) active p Hp
                  Hgap). lia.
Qed.

(** ** Resolving alerts *)

Section Resolve.

Implicit Types (a b : LowStockAlert.t) (alerts : list LowStockAlert.t).

(** The table after [resolve now id]. *)
Lemma resolve_cases (now : Timestamp) (id : Z) (db : DB) :
  let mark a := if bool_decide (LowStockAlert.id a = id)
                then LowStockAlert.setResolved a now else a in
  (filter (λ a, LowStockAlert.id a = id) (lowStockAlerts db) = []
   ∧ lowStockAlertQueries.resolve now id db
     = (Throw (Error "Alert not found"), db))
  ∨ (∃ a rest,
       filter (λ a, LowStockAlert.id a = id) (lowStockAlerts db) = a :: rest
       ∧ lowStockAlertQueries.resolve now id db
         = (Ok (LowStockAlert.setResolved a now),
            withLowStockAlerts db (mark <$> lowStockAlerts db)
              (lowStockAlerts_seq db))).
Proof.
  intros mark. unfold lowStockAlertQueries.resolve.
  destruct (filter _ (lowStockAlerts db)) as [|a rest] eqn:Hf; simpl.
  - by left.
  - right. by exists a, rest.
Qed.

(** [resolve] on an id no alert has throws "Alert not found" and writes
    nothing.  On an id some alert has it returns that alert, resolved at
    [now]; afterwards every alert with the id is resolved at [now], the
    alerts with another id are as they were, no alert has appeared or
    gone, and the snapshots of every alert are as they were. *)
Theorem resolve_marks_one_alert (now : Timestamp) (id : Z) (db : DB) :
  let out := lowStockAlertQueries.resolve now id db in
  ((∀ a, a ∈ lowStockAlerts db → LowStockAlert.id a ≠ id) →
     out = (Throw (Error "Alert not found"), db))
  ∧ ((∃ a, a ∈ lowStockAlerts db ∧ LowStockAlert.id a = id) →
     ∃ r,
       out.1 = Ok r
       ∧ LowStockAlert.id r = id
       ∧ LowStockAlert.isResolved r = true
       ∧ LowStockAlert.resolvedAt r = Some now
       ∧ (∀ b, b ∈ lowStockAlerts out.2 → LowStockAlert.id b = id →
               LowStockAlert.isResolved b = true
               ∧ LowStockAlert.resolvedAt b = Some now)
       ∧ (∀ b, LowStockAlert.id b ≠ id →
               b ∈ lowStockAlerts out.2 ↔ b ∈ lowStockAlerts db)
       ∧ (λ b, (LowStockAlert.id b, LowStockAlert.productId b,
                LowStockAlert.weeklyPlanId b, LowStockAlert.currentStock b,
                LowStockAlert.plannedQuantity b, LowStockAlert.alertLevel b,
                LowStockAlert.alertDate b)) <$> lowStockAlerts out.2
         = (λ b, (LowStockAlert.id b, LowStockAlert.productId b,
                  LowStockAlert.weeklyPlanId b, LowStockAlert.currentStock b,
                  LowStockAlert.plannedQuantity b, LowStockAlert.alertLevel b,
                  LowStockAlert.alertDate b)) <$> lowStockAlerts db
       ∧ products out.2 = products db
       ∧ weeklyStockPlans out.2 = weeklyStockPlans db
       ∧ stockTransactions out.2 = stockTransactions db).
Proof.
  intros out. subst out.
  destruct (resolve_cases now id db) as [[Hf ->]|(a & rest & Hf & ->)].
  - split; [done|]. intros (a & Ha & Hid). exfalso.
    by eapply (filter_nil_not_elem_of _ _ a Hf).
  - split.
    { intros Hno. exfalso.
      assert (Ha : a ∈ filter (λ a, LowStockAlert.id a = id)
                         (lowStockAlerts db)) by (rewrite Hf; left).
      apply list_elem_of_filter in Ha as [Hid Ha]. by apply (Hno a). }
    intros _. simpl.
    assert (Ha : a ∈ filter (λ a, LowStockAlert.id a = id)
                       (lowStockAlerts db)) by (rewrite Hf; left).
    apply list_elem_of_filter in Ha as [Hid Ha].
    eexists. split_and!; try done.
    + intros b (b0 & -> & Hb0)%list_elem_of_fmap.
      case_bool_decide; [done|]. simpl. done.
    + intros b Hb. rewrite list_elem_of_fmap. split.
      * intros (b0 & -> & Hb0). case_bool_decide; [|done].
        simpl in Hb. done.
      * intros Hin. exists b. by rewrite bool_decide_eq_false_2.
    + rewrite <- list_fmap_compose. apply list_fmap_ext.
      intros i b _. simpl. by case_bool_decide.
Qed.

(** [resolve] does not look at the resolved flag: resolving an alert a
    second time is accepted too, and moves its resolution time to the
    later call. *)
Theorem resolve_twice_moves_the_time (now1 now2 : Timestamp) (id : Z)
    (db db1 : DB) (a : LowStockAlert.t) :
  lowStockAlertQueries.resolve now1 id db = (Ok a, db1) →
  ∃ a2 db2,
    lowStockAlertQueries.resolve now2 id db1 = (Ok a2, db2)
    ∧ LowStockAlert.id a2 = id
    ∧ LowStockAlert.resolvedAt a = Some now1
    ∧ LowStockAlert.resolvedAt a2 = Some now2
    ∧ ∀ b, b ∈ lowStockAlerts db2 → LowStockAlert.id b = id →
           LowStockAlert.resolvedAt b = Some now2.
Proof.
  intros Hfirst.
  destruct (resolve_cases now1 id db) as [[_ Hthrow]|(a0 & rest & Hf & Hok)];
    [congruence|].
  rewrite Hok in Hfirst. injection Hfirst as <- <-.
  assert (Ha0 : a0 ∈ filter (λ a, LowStockAlert.id a = id)
                       (lowStockAlerts db)) by (rewrite Hf; left).
  apply list_elem_of_filter in Ha0 as [Hid Ha0].
  set (db1 := withLowStockAlerts _ _ _).
  destruct (resolve_cases now2 id db1) as [[Hnone _]|(a1 & rest1 & Hf1 & ->)].
  - exfalso.
    apply (filter_nil_not_elem_of _ _ (LowStockAlert.setResolved a0 now1)
             Hnone); [done|].
    simpl. apply list_elem_of_fmap. exists a0.
    by rewrite bool_decide_eq_true_2.
  - assert (Ha1 : a1 ∈ filter (λ a, LowStockAlert.id a = id)
                         (lowStockAlerts db1)) by (rewrite Hf1; left).
    apply list_elem_of_filter in Ha1 as [Hid1 _].
    eexists _, _. split; [done|]. split_and!; try done.
    intros b (b0 & -> & Hb0)%list_elem_of_fmap.
    case_bool_decide; [done|]. simpl. done.
Qed.

End Resolve.

(** ** At most one open alert for a product and a plan *)

Section OpenAlerts.
Import weeklyStockPlanQueries.




(** [getUnresolvedAlerts], as a list of alerts. *)
Lemma getUnresolvedAlerts_alerts (db : DB) :
  ∃ rows,
    lowStockAlertQueries_getUnresolvedAlerts db = (Ok rows, db)
    ∧ Sorted latestAlertFirst rows
    ∧ alert <$> rows
      ≡ₚ filter (λ a, LowStockAlert.isResolved a = false) (lowStockAlerts db)
    ∧ ∀ row, row ∈ rows →
        alertProduct row
        = products db !! LowStockAlert.productId (alert row).
Proof.
  eexists. split; [reflexivity|]. split_and!.
  - apply Sorted_merge_sort. intros a b. unfold latestAlertFirst. lia.
  - rewrite merge_sort_Permutation, <- list_fmap_compose.
    by rewrite list_fmap_id.
  - intros row Hrow. rewrite merge_sort_Permutation in Hrow.
    by apply list_elem_of_fmap in Hrow as (a & -> & _).
Qed.

(** After a check that returned, every shortage of a current plan is
    flagged: for each active plan of the day whose product's stock is below
    the planned quantity, [getUnresolvedAlerts] lists an alert on that plan
    and product, joined to the product. *)
Theorem every_shortage_is_flagged (now : Timestamp) (db db' : DB)
    (alerts : list LowStockAlert.t) (pl : WeeklyStockPlan.t)
    (p : Product.t) :
  lowStockAlertQueries.processLowStockChecking now db = (Ok alerts, db') →
  pl ∈ weeklyStockPlans db →
  isCurrent (toISODate now) pl →
  products db !! WeeklyStockPlan.productId pl = Some p →
  Product.currentStock p < WeeklyStockPlan.plannedQuantity pl →
  ∃ rows row,
    lowStockAlertQueries_getUnresolvedAlerts db' = (Ok rows, db')
    ∧ Sorted latestAlertFirst rows
    ∧ row ∈ rows
    ∧ LowStockAlert.productId (alert row) = WeeklyStockPlan.productId pl
    ∧ LowStockAlert.weeklyPlanId (alert row) = WeeklyStockPlan.id pl
    ∧ LowStockAlert.isResolved (alert row) = false
    ∧ alertProduct row = Some p.
Proof.
  intros Hrun Hpl Hcur Hp Hlt.
  apply processLowStockChecking_steps in Hrun as [_ Hloop].
  apply createMissingAlerts_returned in Hloop
    as (created & -> & -> & _ & Hall & _).
  set (db' := withLowStockAlerts _ _ _).
  destruct (getUnresolvedAlerts_alerts db')
    as (rows & Hrows & Hsorted & Hperm & Hjoin).
  destruct (Hall (mkShortage (WeeklyStockPlan.productId pl) (Product.name p)
                    (Product.currentStock p)
                    (WeeklyStockPlan.plannedQuantity pl)
                    (WeeklyStockPlan.id pl) (WeeklyStockPlan.unit pl)))
    as (a & Ha & Hprod & Hplan & Hopen).
  { apply list_elem_of_omap. exists (mkDetails pl (Some p)). split.
    - unfold currentRows. apply list_elem_of_fmap. exists pl.
      split; [by rewrite Hp|]. by apply list_elem_of_filter.
    - unfold shortageOf. simpl. by rewrite decide_True. }
  simpl in Hprod, Hplan.
  assert (Hin : a ∈ alert <$> rows).
  { rewrite Hperm. apply list_elem_of_filter. by split. }
  apply list_elem_of_fmap in Hin as (row & -> & Hrow).
  exists rows, row. split_and!; try done.
  rewrite (Hjoin row Hrow), Hprod. exact Hp.
Qed.

(** Once resolved, an alert does not silence the shortage: if the alerts
    open for a plan and its product all had the resolved id, and the plan
    is current and still short, the next check creates and returns a new
    alert for them, and leaves the resolved ones as they are. *)
Theorem resolved_shortage_is_flagged_again (now1 now2 : Timestamp) (id : Z)
    (db db1 : DB) (a : LowStockAlert.t) (pl : WeeklyStockPlan.t)
    (p : Product.t) :
  lowStockAlertQueries.resolve now1 id db = (Ok a, db1) →
  plansReferToProducts db →
  pl ∈ weeklyStockPlans db →
  isCurrent (toISODate now2) pl →
  products db !! WeeklyStockPlan.productId pl = Some p →
  Product.currentStock p < WeeklyStockPlan.plannedQuantity pl →
  (∀ b, b ∈ lowStockAlerts db →
        lowStockAlertQueries.isOpenFor (WeeklyStockPlan.productId pl)
          (WeeklyStockPlan.id pl) b →
        LowStockAlert.id b = id) →
  ∃ alerts db2 new,
    lowStockAlertQueries.processLowStockChecking now2 db1 = (Ok alerts, db2)
    ∧ new ∈ alerts
    ∧ lowStockAlertQueries.isOpenFor (WeeklyStockPlan.productId pl)
        (WeeklyStockPlan.id pl) new
    ∧ LowStockAlert.currentStock new = Product.currentStock p
    ∧ LowStockAlert.alertDate new = now2
    ∧ lowStockAlerts db2 = (lowStockAlerts db1 ++ alerts)%list.
Proof.
  intros Hres Hfk Hpl Hcur Hp Hlt Hsame.
  destruct (resolve_cases now1 id db) as [[_ Hthrow]|(a0 & rest & _ & Hok)];
    [congruence|].
  rewrite Hok in Hres. injection Hres as <- <-.
  set (db1 := withLowStockAlerts _ _ _).
  assert (Hfk1 : plansReferToProducts db1) by exact Hfk.
  destruct (processLowStockChecking_returns now2 db1 Hfk1)
    as (alerts & db2 & Hrun).
  pose proof (processLowStockChecking_steps _ _ _ _ Hrun) as [_ Hloop].
  apply createMissingAlerts_returned in Hloop
    as (created & -> & -> & Hfrom & _ & Hnew).
  set (item := mkShortage (WeeklyStockPlan.productId pl) (Product.name p)
                 (Product.currentStock p)
                 (WeeklyStockPlan.plannedQuantity pl)
                 (WeeklyStockPlan.id pl) (WeeklyStockPlan.unit pl)).
  assert (Hitem : item ∈ omap shortageOf (currentRows now2 db1)).
  { apply list_elem_of_omap. exists (mkDetails pl (Some p)). split.
    - unfold currentRows. apply list_elem_of_fmap. exists pl.
      split; [by simpl; rewrite Hp|]. by apply list_elem_of_filter.
    - unfold shortageOf. simpl. by rewrite decide_True. }
  assert (Hfresh : ¬ hasOpenAlert (lowStockAlerts db1) item).
  { intros (b & Hb & Hopen). simpl in Hb.
    apply list_elem_of_fmap in Hb as (b0 & -> & Hb0).
    case_bool_decide as Hid.
    - by destruct Hopen as (_ & _ & [=]).
    - apply Hid. by apply Hsame. }
  destruct (Hnew item Hitem Hfresh) as (new & Hin & Hopen).
  rewrite Forall_forall in Hfrom.
  destruct (Hfrom new Hin) as (item' & Hitem' & _ & Hrow).
  exists created, (withLowStockAlerts db1 (lowStockAlerts db1 ++ created)
                     (lowStockAlerts_seq db1 + Z.of_nat (length created))), new.
  split_and!; try done.
  - apply list_elem_of_omap in Hitem' as (row & Hrow' & Hsome).
    apply shortageOf_Some in Hsome as (p' & Hp' & _ & Hitem'').
    apply list_elem_of_fmap in Hrow' as (pl' & -> & Hpl').
    simpl in Hp', Hitem''.
    destruct Hopen as (Hprod & _).
    rewrite Hrow in Hprod |- *. simpl in *. subst item'. simpl in *.
    rewrite Hprod, Hp in Hp'. by injection Hp' as <-.
  - by rewrite Hrow.
Qed.

Lemma performAll_keeps_alerts (calls : list Call) (db : DB) :
  lowStockAlerts (performAll calls db).2 = lowStockAlerts db
  ∧ weeklyStockPlans (performAll calls db).2 = weeklyStockPlans db
  ∧ ∀ id, is_Some (products (performAll calls db).2 !! id)
          ↔ is_Some (products db !! id).
Proof.
  revert db. induction calls as [|c rest IH]; intros db; simpl; [done|].
  destruct (perform c db) as [[r|e] db'] eqn:Hrun.
  - specialize (IH db'). destruct (performAll rest db') as [acc db''].
    simpl in *. destruct IH as (-> & -> & Hdom).
    destruct (perform_accepted _ _ _ _ Hrun)
      as (p & Hp & _ & _ & _ & _ & _ & _ & _ & _ & ->). simpl.
    split_and!; [done..|]. intros id. rewrite Hdom. simpl.
    destruct (decide (callProduct c = id)) as [<-|Hne].
    + rewrite lookup_insert_eq, Hp. split; eauto.
    + by rewrite lookup_insert_ne.
  - apply perform_rejected in Hrun as ->. apply IH.
Qed.

(** Stock movements never close an alert: an alert that is open stays
    listed by [getUnresolvedAlerts] after any stock-in and stock-out calls,
    also when they have brought the stock back above the plan. *)
Theorem open_alert_survives_stock_movements (calls : list Call) (db : DB)
    (a : LowStockAlert.t) :
  a ∈ lowStockAlerts db →
  LowStockAlert.isResolved a = false →
  let db' := (performAll calls db).2 in
  ∃ rows row,
    lowStockAlertQueries_getUnresolvedAlerts db' = (Ok rows, db')
    ∧ row ∈ rows
    ∧ alert row = a.
Proof.
  intros Ha Hopen db'.
  destruct (getUnresolvedAlerts_alerts db') as (rows & Hrows & _ & Hperm & _).
  assert (Hin : a ∈ alert <$> rows).
  { rewrite Hperm. apply list_elem_of_filter. split; [done|].
    subst db'. by rewrite (proj1 (performAll_keeps_alerts calls db)). }
  apply list_elem_of_fmap in Hin as (row & -> & Hrow).
  by exists rows, row.
Qed.

End OpenAlerts.

(** ** Weekly plans: create, update, delete *)

Section Plans.
Import weeklyStockPlanQueries.

(** [weeklyStockPlanQueries.delete] always returns and removes no row: it
    switches off the plans with the id and leaves the others, and the
    alerts, alone.  Afterwards no plan with that id is among the current
    plans of any day, and no check creates an alert for it. *)
Theorem deleted_plan_is_out_of_use (id : Z) (db : DB) :
  let out := weeklyStockPlanQueries_delete id db in
  out.1 = Ok ()
  ∧ WeeklyStockPlan.id <$> weeklyStockPlans out.2
    = WeeklyStockPlan.id <$> weeklyStockPlans db
  ∧ (∀ pl, WeeklyStockPlan.id pl ≠ id →
           pl ∈ weeklyStockPlans out.2 ↔ pl ∈ weeklyStockPlans db)
  ∧ (∀ pl, pl ∈ weeklyStockPlans out.2 → WeeklyStockPlan.id pl = id →
           WeeklyStockPlan.isActive pl = false)
  ∧ lowStockAlerts out.2 = lowStockAlerts db
  ∧ products out.2 = products db
  ∧ (∀ now row, row ∈ currentRows now out.2 →
                WeeklyStockPlan.id (plan row) ≠ id)
  ∧ (∀ now,
       ∃ created,
         lowStockAlerts
           (lowStockAlertQueries.processLowStockChecking now out.2).2
         = (lowStockAlerts db ++ created)%list
         ∧ ∀ a, a ∈ created → LowStockAlert.weeklyPlanId a ≠ id).
Proof.
  intros out. subst out. unfold weeklyStockPlanQueries_delete. simpl.
  set (off := λ p, if bool_decide (WeeklyStockPlan.id p = id)
                   then deactivate p else p).
  assert (Hoff : ∀ pl, pl ∈ off <$> weeklyStockPlans db →
                       WeeklyStockPlan.id pl = id →
                       WeeklyStockPlan.isActive pl = false).
  { intros pl (pl0 & -> & _)%list_elem_of_fmap. unfold off.
    by case_bool_decide. }
  assert (Hcurrent : ∀ now row,
             row ∈ currentRows now
                     (withWeeklyStockPlans db (off <$> weeklyStockPlans db)) →
             WeeklyStockPlan.id (plan row) ≠ id).
  { intros now row (pl & -> & Hpl)%list_elem_of_fmap Hid.
    apply list_elem_of_filter in Hpl as [(Hactive & _) Hpl]. simpl in *.
    by rewrite (Hoff pl Hpl Hid) in Hactive. }
  split_and!; try done.
  - rewrite <- list_fmap_compose. apply list_fmap_ext.
    intros i pl _. simpl. unfold off. by case_bool_decide.
  - intros pl Hne. rewrite list_elem_of_fmap. split.
    + intros (pl0 & -> & Hpl0). unfold off in *.
      case_bool_decide; [done|]. done.
    + intros Hpl. exists pl. unfold off.
      by rewrite bool_decide_eq_false_2.
  - intros now.
    set (db1 := withWeeklyStockPlans db _).
    destruct (lowStockAlertQueries.processLowStockChecking now db1)
      as [[alerts|e] db2] eqn:Hrun.
    + apply processLowStockChecking_steps in Hrun as [_ Hloop].
      apply createMissingAlerts_returned in Hloop
        as (created & -> & -> & Hfrom & _ & _).
      exists created. split; [done|]. intros a Ha.
      rewrite Forall_forall in Hfrom.
      destruct (Hfrom a Ha) as (item & Hitem & _ & ->).
      apply list_elem_of_omap in Hitem as (row & Hrow & Hsome).
      apply shortageOf_Some in Hsome as (p & _ & _ & ->). simpl.
      by apply (Hcurrent now).
    + apply processLowStockChecking_throws in Hrun as ->.
      exists []. simpl. rewrite app_nil_r. split; [done|].
      by intros a Ha%elem_of_nil.
Qed.

(** [weeklyStockPlanQueries.update] on an id no plan has throws "Weekly
    stock plan not found"; whenever it throws nothing is written.  It never
    changes the id or the active flag of a plan, so a plan that was
    switched off cannot be brought back by it; the plans with another id
    are as they were; and the row it returns has the id and the keys that
    were given. *)
Theorem update_keeps_id_and_flag (id : Z) (planData : UpdateWeeklyStockPlan.t)
    (db : DB) :
  let out := weeklyStockPlanQueries_update id planData db in
  ((∀ pl, pl ∈ weeklyStockPlans db → WeeklyStockPlan.id pl ≠ id) →
     out = (Throw (Error "Weekly stock plan not found"), db))
  ∧ (∀ e, out.1 = Throw e → out.2 = db)
  ∧ (λ pl, (WeeklyStockPlan.id pl, WeeklyStockPlan.isActive pl))
      <$> weeklyStockPlans out.2
    = (λ pl, (WeeklyStockPlan.id pl, WeeklyStockPlan.isActive pl))
        <$> weeklyStockPlans db
  ∧ (∀ pl, WeeklyStockPlan.id pl ≠ id →
           pl ∈ weeklyStockPlans out.2 ↔ pl ∈ weeklyStockPlans db)
  ∧ (∀ r, out.1 = Ok r →
          WeeklyStockPlan.id r = id
          ∧ r ∈ weeklyStockPlans out.2
          ∧ from_option (λ q, WeeklyStockPlan.plannedQuantity r = q) True
              (UpdateWeeklyStockPlan.plannedQuantity planData)
          ∧ from_option (λ d, WeeklyStockPlan.weekStartDate r = d) True
              (UpdateWeeklyStockPlan.weekStartDate planData)
          ∧ from_option (λ d, WeeklyStockPlan.weekEndDate r = d) True
              (UpdateWeeklyStockPlan.weekEndDate planData)
          ∧ from_option (λ pid, WeeklyStockPlan.productId r = pid
                                ∧ is_Some (products db !! pid)) True
              (UpdateWeeklyStockPlan.productId planData)).
Proof.
  intros out. subst out. unfold weeklyStockPlanQueries_update.
  destruct (filter (λ p, WeeklyStockPlan.id p = id) (weeklyStockPlans db))
    as [|pl0 rest] eqn:Hhits; simpl.
  { split_and!; done. }
  assert (Hpl0 : pl0 ∈ filter (λ p, WeeklyStockPlan.id p = id)
                        (weeklyStockPlans db)) by (rewrite Hhits; left).
  apply list_elem_of_filter in Hpl0 as [Hid0 Hin0].
  split.
  { intros Hno. by destruct (Hno pl0 Hin0). }
  destruct (decide (from_option _ True (UpdateWeeklyStockPlan.productId _)))
    as [Hprod|Hprod]; [|by split_and!; [| | |intros ? [=]]].
  destruct (decide (from_option _ True (UpdateWeeklyStockPlan.userId _)))
    as [Huser|Huser]; [|by split_and!; [| | |intros ? [=]]].
  simpl. split_and!.
  - intros e [=].
  - rewrite <- list_fmap_compose. apply list_fmap_ext.
    intros i pl _. simpl. by case_bool_decide.
  - intros pl Hne. rewrite list_elem_of_fmap. split.
    + intros (pl1 & -> & Hpl1). case_bool_decide; [done|]. done.
    + intros Hpl. exists pl. by rewrite bool_decide_eq_false_2.
  - intros r [= <-]. split_and!.
    + done.
    + apply list_elem_of_fmap. exists pl0.
      by rewrite bool_decide_eq_true_2.
    + by destruct planData as [? ? [?|] ? ? ? ?].
    + by destruct planData as [? ? ? ? [?|] ? ?].
    + by destruct planData as [? ? ? ? ? [?|] ?].
    + by destruct planData as [[?|] ? ? ? ? ? ?].
Qed.

(** A plan that [create] accepted is active and is among the current plans
    of every day of its week, joined to its product; the plans before it
    are as they were, and every plan still refers to a product that
    exists. *)
Theorem created_plan_is_current (id : Z) (planData : InsertWeeklyStockPlan.t)
    (db db' : DB) (row : WeeklyStockPlan.t) (now : Timestamp) :
  weeklyStockPlanQueries_create id planData db = (Ok row, db') →
  InsertWeeklyStockPlan.weekStartDate planData ≤ toISODate now →
  toISODate now ≤ InsertWeeklyStockPlan.weekEndDate planData →
  ∃ rows p,
    getCurrentWeekPlans now db' = (Ok rows, db')
    ∧ products db !! InsertWeeklyStockPlan.productId planData = Some p
    ∧ mkDetails row (Some p) ∈ rows
    ∧ WeeklyStockPlan.id row = id
    ∧ WeeklyStockPlan.isActive row = true
    ∧ WeeklyStockPlan.plannedQuantity row
      = InsertWeeklyStockPlan.plannedQuantity planData
    ∧ weeklyStockPlans db' = (weeklyStockPlans db ++ [row])%list
    ∧ (id ∉ (WeeklyStockPlan.id <$> weeklyStockPlans db))
    ∧ (plansReferToProducts db → plansReferToProducts db').
Proof.
  unfold weeklyStockPlanQueries_create.
  destruct (decide (id ∈ _)) as [|Hfresh]; [discriminate|].
  destruct (decide (is_Some _)) as [[p Hp]|]; [|discriminate].
  destruct (decide (_ ∈ users db)); [|discriminate].
  intros [= <- <-] Hstart Hend. simpl in Hp.
  eexists _, p. split; [reflexivity|]. simpl. split_and!; try done.
  - apply list_elem_of_fmap. eexists. split; last first.
    { apply list_elem_of_filter. split; [|apply elem_of_app; right; left].
      done. }
    simpl. by rewrite Hp.
  - intros Hfk pl [Hpl| ->%list_elem_of_singleton]%elem_of_app; simpl.
    + by apply Hfk.
    + eauto.
Qed.


End Plans.

(** ** The routes over users and alerts *)

Section AdminRoutes.
Import routes.

Lemma countOf_filter_pos {A B} `{EqDecision B} (key : A → B) (k : B)
    (rows : list A) :
  0 < countOf (filter (λ row, key row = k) rows) ↔ k ∈ key <$> rows.
Proof.
  unfold countOf. rewrite list_elem_of_fmap.
  destruct (filter _ rows) as [|row rest] eqn:Hf; simpl.
  - split; [lia|]. intros (row & -> & Hrow).
    assert (Hin : row ∈ filter (λ row0, key row0 = key row) rows)
      by by apply list_elem_of_filter.
    rewrite Hf in Hin. by apply elem_of_nil in Hin.
  - split; [intros _|lia].
    assert (Hin : row ∈ filter (λ row, key row = k) rows)
      by (rewrite Hf; left).
    apply list_elem_of_filter in Hin as [Hk Hin]. by exists row.
Qed.

(** [DELETE /api/users/:id], asked by a super admin, always answers, with
    200 or 400 and never with 500.  It answers 200 exactly when the user is
    not the caller and neither a transaction nor a weekly plan refers to the
    user; then the user, and nothing else, is removed.  In every other case
    nothing is written.  A user whom only weekly plans refer to is refused
    by the database, and the answer speaks of transaction records. *)
Theorem deleteUser_answers (u : ReqUser) (userId : Z) (db : DB) :
  role u = super_admin →
  let out := deleteUser (Some u) userId db in
  let moved := userId ∈ StockTransaction.userId <$> stockTransactions db in
  let planned := userId ∈ WeeklyStockPlan.userId <$> weeklyStockPlans db in
  ∃ resp,
    out.1 = Ok resp
    ∧ (status resp = 200 ∨ status resp = 400)
    ∧ (status resp = 200 ↔ userId ≠ id u ∧ ¬ moved ∧ ¬ planned)
    ∧ (status resp = 200 →
         resp = mkResponse 200 (Message "User deleted successfully")
         ∧ out.2 = withUsers db (users db ∖ {[ userId ]}))
    ∧ (status resp = 400 → out.2 = db)
    ∧ (userId = id u →
         resp = mkResponse 400 (Message "Cannot delete your own account"))
    ∧ (userId ≠ id u → moved →
         ∃ n, 0 < n
              ∧ n = countOf (filter (λ t, StockTransaction.userId t = userId)
                               (stockTransactions db))
              ∧ resp = mkResponse 400
                         (MessageWithCount (hasTransactionsMessage n) n))
    ∧ (userId ≠ id u → ¬ moved → planned →
         resp = mkResponse 400
                  (Message "Cannot delete user due to existing transaction records. Please deactivate the user instead.")).
Proof.
  intros Hrole out moved planned. subst out moved planned.
  unfold deleteUser, requireRole. rewrite Hrole.
  rewrite decide_True by (apply list_elem_of_singleton; reflexivity).
  unfold tryCatch, mbind, Query_bind, mret, Query_ret,
    userQueries.getTransactionCount.
  destruct (decide (userId = id u)) as [Hself|Hother]; simpl.
  { eexists. split; [reflexivity|]. simpl.
    split_and!; try done; [by right|split; [done|by intros (? & _)]]. }
  destruct (decide (0 < countOf _)) as [Hpos|Hzero]; simpl.
  { pose proof Hpos as Hmoved. apply countOf_filter_pos in Hmoved.
    eexists. split; [reflexivity|]. simpl.
    split_and!; try done; [by right|split; [done|by intros (_ & ? & _)]|].
    intros _ _. eexists. by split_and!. }
  assert (Hstill : userId ∉ StockTransaction.userId <$> stockTransactions db).
  { intros Hin. by apply countOf_filter_pos in Hin. }
  unfold userQueries.delete. rewrite decide_False by done.
  destruct (decide (userId ∈ WeeklyStockPlan.userId <$> _)) as [Hplan|Hfree];
    simpl.
  - eexists. split; [reflexivity|]. simpl.
    split_and!; try done; [by right|].
    split; [done|by intros (_ & _ & ?)].
  - eexists. split; [reflexivity|]. simpl.
    split_and!; try done; by left.
Qed.

(** [PUT /api/alerts/low-stock/:id/resolve], asked by a role the route
    admits: for an id no alert has the answer is 500 "Failed to resolve
    alert", not 404, and nothing is written; for an id some alert has the
    answer is 200 with that alert, resolved at the time of the request. *)
Theorem resolveAlert_answers (now : Timestamp) (u : ReqUser) (alertId : Z)
    (db : DB) :
  role u ∈ [super_admin; master_inventory_handler; stock_in_manager] →
  let out := resolveAlert now (Some u) alertId db in
  ((∀ a, a ∈ lowStockAlerts db → LowStockAlert.id a ≠ alertId) →
     out = (Ok (mkResponse 500 (Message "Failed to resolve alert")), db))
  ∧ (alertId ∈ LowStockAlert.id <$> lowStockAlerts db →
       ∃ a r,
         a ∈ lowStockAlerts db
         ∧ LowStockAlert.id a = alertId
         ∧ r = LowStockAlert.setResolved a now
         ∧ out.1 = Ok (mkResponse 200 (Alert r))
         ∧ r ∈ lowStockAlerts out.2
         ∧ LowStockAlert.isResolved r = true
         ∧ LowStockAlert.resolvedAt r = Some now).
Proof.
  intros Hrole out. subst out. unfold resolveAlert, requireRole.
  rewrite decide_True by done.
  unfold tryCatch, mbind, Query_bind, mret, Query_ret.
  destruct (resolve_cases now alertId db)
    as [[Hnone ->]|(a & rest & Hsome & ->)]; simpl.
  - split; [done|]. intros (a & -> & Ha)%list_elem_of_fmap.
    assert (Hin : a ∈ filter (λ a0, LowStockAlert.id a0 = LowStockAlert.id a)
                        (lowStockAlerts db)) by by apply list_elem_of_filter.
    rewrite Hnone in Hin. by apply elem_of_nil in Hin.
  - assert (Hin : a ∈ filter (λ a, LowStockAlert.id a = alertId)
                        (lowStockAlerts db)) by (rewrite Hsome; left).
    apply list_elem_of_filter in Hin as [Hid Hin].
    split; [intros Hno; by destruct (Hno a Hin)|].
    intros _. exists a, (LowStockAlert.setResolved a now).
    split_and!; try done.
    apply list_elem_of_fmap. exists a. by rewrite bool_decide_eq_true_2.
Qed.

(** [POST /api/alerts/check-low-stock], asked by a role the route admits,
    always answers.  Either the answer is 200 and carries exactly the
    alerts the request appended to the table, with their number in the
    message and in [newAlerts]; or it is 500, nothing was written, and some
    plan refers to a product that does not exist. *)
Theorem checkLowStock_answers (now : Timestamp) (u : ReqUser) (db : DB) :
  role u ∈ [super_admin; master_inventory_handler] →
  let out := checkLowStock now (Some u) db in
  (∃ created,
     out.1 = Ok (mkResponse 200
                   (CheckResult
                      ("Low stock checking completed. "
                       ++ pretty (Z.of_nat (length created))
                       ++ " new alerts created.")
                      (Z.of_nat (length created)) created))
     ∧ lowStockAlerts out.2 = (lowStockAlerts db ++ created)%list
     ∧ products out.2 = products db
     ∧ weeklyStockPlans out.2 = weeklyStockPlans db)
  ∨ (out = (Ok (mkResponse 500
                  (Message "Failed to process low stock checking")), db)
     ∧ ¬ plansReferToProducts db).
Proof.
  intros Hrole out. subst out. unfold checkLowStock, requireRole.
  rewrite decide_True by done.
  unfold tryCatch, mbind, Query_bind, mret, Query_ret.
  destruct (lowStockAlertQueries.processLowStockChecking now db)
    as [[alerts|e] db'] eqn:Hrun; simpl.
  - left. apply processLowStockChecking_steps in Hrun as [_ Hloop].
    apply createMissingAlerts_returned in Hloop
      as (created & -> & -> & _). simpl.
    by exists created.
  - right. pose proof Hrun as ->%processLowStockChecking_throws.
    split; [done|]. intros Hfk.
    destruct (processLowStockChecking_returns now db Hfk)
      as (alerts & db'' & Hok).
    rewrite Hok in Hrun. discriminate.
Qed.

End AdminRoutes.

(** ** Listings *)

Section Listings.
Import weeklyStockPlanQueries stockTransactionQueries.

#[local] Instance latestWeekFirst_total : Total latestWeekFirst.
Proof. intros a b. unfold latestWeekFirst. lia. Qed.

(** [weeklyStockPlanQueries.getAll] never throws and writes nothing.  It
    lists the active plans, of whatever week, latest week first, each joined
    to its product; the current plans of any day are among them, and a plan
    that was deleted is not. *)
Theorem getAll_lists_the_active_plans (db : DB) :
  ∃ rows,
    weeklyStockPlanQueries_getAll db = (Ok rows, db)
    ∧ Sorted latestWeekFirst rows
    ∧ plan <$> rows
      ≡ₚ filter (λ p, WeeklyStockPlan.isActive p = true) (weeklyStockPlans db)
    ∧ (∀ row, row ∈ rows →
         weeklyStockPlanQueries.product row
         = products db !! WeeklyStockPlan.productId (plan row))
    ∧ (∀ now row, row ∈ currentRows now db → row ∈ rows)
    ∧ (∀ id rows',
         (weeklyStockPlanQueries_getAll (weeklyStockPlanQueries_delete id db).2).1
         = Ok rows' →
         ∀ row, row ∈ rows' → WeeklyStockPlan.id (plan row) ≠ id).
Proof.
  eexists. split; [reflexivity|]. split_and!.
  - apply Sorted_merge_sort. apply _.
  - rewrite merge_sort_Permutation, <- list_fmap_compose.
    apply reflexive_eq, list_fmap_id.
  - intros row Hrow. rewrite merge_sort_Permutation in Hrow.
    by apply list_elem_of_fmap in Hrow as (pl & -> & _).
  - intros now row (pl & -> & Hpl)%list_elem_of_fmap.
    rewrite merge_sort_Permutation. apply list_elem_of_fmap.
    exists pl. split; [done|].
    apply list_elem_of_filter in Hpl as [(Hactive & _) Hpl].
    by apply list_elem_of_filter.
  - intros id rows' [= <-] row Hrow Hid.
    rewrite merge_sort_Permutation in Hrow.
    apply list_elem_of_fmap in Hrow as (pl & -> & Hpl).
    apply list_elem_of_filter in Hpl as [Hactive Hpl]. simpl in *.
    apply list_elem_of_fmap in Hpl as (pl0 & -> & _).
    revert Hactive Hid. case_bool_decide; [done|]. done.
Qed.

Lemma getAllWithDetails_transactions (filters : option Filters) (db : DB) :
  ∃ rows,
    getAllWithDetails filters db = (Ok rows, db)
    ∧ transaction <$> rows
      ≡ₚ filter (matches (default noFilters filters)) (stockTransactions db).
Proof.
  eexists. split; [reflexivity|].
  rewrite merge_sort_Permutation, <- list_fmap_compose.
  apply reflexive_eq, list_fmap_id.
Qed.

(** [getByType] splits the log: every logged transaction is listed under
    exactly one of the two types.  [getByDateRange] takes both ends in: it
    lists the transactions dated from [fromDate] to [toDate] inclusive, and
    none when [toDate] is before [fromDate]. *)
Theorem getByType_and_getByDateRange (fromDate toDate : Timestamp)
    (db : DB) :
  ∃ ins outs ranged,
    getByType stock_in db = (Ok ins, db)
    ∧ getByType stock_out db = (Ok outs, db)
    ∧ getByDateRange fromDate toDate db = (Ok ranged, db)
    ∧ (transaction <$> ins) ++ (transaction <$> outs) ≡ₚ stockTransactions db
    ∧ (∀ row, row ∈ ins → StockTransaction.type (transaction row) = stock_in)
    ∧ (∀ row, row ∈ outs →
              StockTransaction.type (transaction row) = stock_out)
    ∧ (∀ t, t ∈ transaction <$> ranged
            ↔ t ∈ stockTransactions db
              ∧ fromDate ≤ StockTransaction.transactionDate t ≤ toDate)
    ∧ (toDate < fromDate → ranged = []).
Proof.
  destruct (getAllWithDetails_transactions
              (Some (mkFilters None (Some stock_in) None None None)) db)
    as (ins & Hins & Pins).
  destruct (getAllWithDetails_transactions
              (Some (mkFilters None (Some stock_out) None None None)) db)
    as (outs & Houts & Pouts).
  destruct (getAllWithDetails_transactions
              (Some (mkFilters None None None (Some fromDate) (Some toDate)))
              db)
    as (ranged & Hranged & Pranged).
  exists ins, outs, ranged. simpl in *.
  assert (Hin : ∀ ty rows,
             transaction <$> rows
             ≡ₚ filter (matches (mkFilters None (Some ty) None None None))
                  (stockTransactions db) →
             ∀ row, row ∈ rows →
                    StockTransaction.type (transaction row) = ty).
  { intros ty rows Hperm row Hrow.
    assert (Ht : transaction row ∈ transaction <$> rows)
      by by apply list_elem_of_fmap_2.
    rewrite Hperm in Ht.
    by apply list_elem_of_filter in Ht as [(_ & Hty & _) _]. }
  assert (Hrange : ∀ t, t ∈ transaction <$> ranged
                        ↔ t ∈ stockTransactions db
                          ∧ fromDate ≤ StockTransaction.transactionDate t
                                     ≤ toDate).
  { intros t. rewrite Pranged, list_elem_of_filter.
    unfold matches, condition. simpl. tauto. }
  split_and!; try done.
  - rewrite Pins, Pouts.
    rewrite <- (filter_app_complement
                  (λ t, StockTransaction.type t = stock_in)
                  (stockTransactions db)) at 3.
    apply Permutation_app.
    + apply reflexive_eq, list_filter_iff. intros t.
      unfold matches, condition. simpl. tauto.
    + apply reflexive_eq, list_filter_iff. intros t.
      unfold matches, condition. simpl.
      destruct (StockTransaction.type t); intuition congruence.
  - by apply Hin.
  - by apply Hin.
  - intros Hlt. destruct ranged as [|row rest]; [done|].
    assert (Ht : transaction row ∈ transaction <$> row :: rest)
      by (simpl; left).
    apply Hrange in Ht as [_ ?]. lia.
Qed.

End Listings.

(** * The rest of the server at work on the example shop *)

Lemma performAll_logWellFormed_witness :
  logWellFormed Examples.shop
  ∧ logWellFormed (performAll Examples.scenario Examples.shop).2.
Proof.
  assert (Hwf : logWellFormed Examples.shop).
  { split; [constructor|]. intros t Ht. by apply elem_of_nil in Ht. }
  split; [exact Hwf|].
  exact (performAll_logWellFormed Examples.scenario Examples.shop Hwf).
Defined.


Lemma deleteProduct_switches_off_witness :
  routes.role Samples.admin
  ∈ [routes.super_admin; routes.master_inventory_handler]
  ∧ (routes.deleteProduct (Some Samples.admin) 1 Examples.shop).1
    = Ok (routes.mkResponse 204 routes.NoContent)
  ∧ stockOf (routes.deleteProduct (Some Samples.admin) 1 Examples.shop).2 1
    = Some 10000.
Proof.
  assert (Hrole : routes.role Samples.admin
                  ∈ [routes.super_admin; routes.master_inventory_handler])
    by (simpl; left).
  split; [exact Hrole|].
  destruct (deleteProduct_switches_off Samples.admin 1 Examples.shop Hrole)
    as (Hanswer & _ & _ & _ & _ & Hstock).
  split; [exact Hanswer|exact Hstock].
Defined.



Lemma hardDelete_keeps_references_witness :
  productQueries_hardDelete 1 Examples.shop
  = (Ok (), (productQueries_hardDelete 1 Examples.shop).2)
  ∧ products (productQueries_hardDelete 1 Examples.shop).2 !! 1 = None.
Proof.
  assert (Hrun : productQueries_hardDelete 1 Examples.shop
                 = (Ok (), (productQueries_hardDelete 1 Examples.shop).2))
    by (vm_compute; reflexivity).
  split; [exact Hrun|].
  exact (proj1 (hardDelete_keeps_references 1 Examples.shop _ Hrun)).
Defined.

Lemma accepted_call_is_listed_witness :
  perform Examples.stockIn50 Examples.shop
  = (Ok Examples.stockIn50Result, Examples.shopAfterStockIn50)
  ∧ callProduct Examples.stockIn50 ≠ 0
  ∧ ∃ rows row,
      stockTransactionQueries.getByProductId 1 Examples.shopAfterStockIn50
      = (Ok rows, Examples.shopAfterStockIn50)
      ∧ row ∈ rows
      ∧ stockTransactionQueries.user row = Some 7.
Proof.
  assert (Hrun : perform Examples.stockIn50 Examples.shop
                 = (Ok Examples.stockIn50Result, Examples.shopAfterStockIn50))
    by (vm_compute; reflexivity).
  assert (Hne : callProduct Examples.stockIn50 ≠ 0) by (simpl; lia).
  split_and!; [exact Hrun|exact Hne|].
  destruct (accepted_call_is_listed _ _ _ _ Hrun Hne)
    as (rows & row & p' & Hrows & Hrow & _ & _ & _ & Huser).
  exists rows, row. split_and!; [exact Hrows|exact Hrow|exact Huser].
Defined.




Lemma resolve_twice_moves_the_time_witness :
  lowStockAlertQueries.resolve Examples.laterOnDay103 1
    Examples.plannedShopChecked
  = (Ok (LowStockAlert.setResolved Examples.riceAlert Examples.laterOnDay103),
     (lowStockAlertQueries.resolve Examples.laterOnDay103 1
        Examples.plannedShopChecked).2)
  ∧ ∃ a2 db2,
      lowStockAlertQueries.resolve (Examples.laterOnDay103 + 1) 1
        (lowStockAlertQueries.resolve Examples.laterOnDay103 1
           Examples.plannedShopChecked).2
      = (Ok a2, db2)
      ∧ LowStockAlert.resolvedAt a2 = Some (Examples.laterOnDay103 + 1).
Proof.
  assert (Hfirst : lowStockAlertQueries.resolve Examples.laterOnDay103 1
                     Examples.plannedShopChecked
                   = (Ok (LowStockAlert.setResolved Examples.riceAlert
                            Examples.laterOnDay103),
                      (lowStockAlertQueries.resolve Examples.laterOnDay103 1
                         Examples.plannedShopChecked).2))
    by (vm_compute; reflexivity).
  split; [exact Hfirst|].
  destruct (resolve_twice_moves_the_time Examples.laterOnDay103
              (Examples.laterOnDay103 + 1) 1 _ _ _ Hfirst)
    as (a2 & db2 & Hsecond & _ & _ & Hat & _).
  exists a2, db2. split; [exact Hsecond|exact Hat].
Defined.


Lemma every_shortage_is_flagged_witness :
  lowStockAlertQueries.processLowStockChecking Examples.day103
    Examples.plannedShop
  = (Ok [Examples.riceAlert], Examples.plannedShopChecked)
  ∧ Examples.ricePlan ∈ weeklyStockPlans Examples.plannedShop
  ∧ weeklyStockPlanQueries.isCurrent
      (weeklyStockPlanQueries.toISODate Examples.day103) Examples.ricePlan
  ∧ products Examples.plannedShop !! 1 = Some Examples.rice80
  ∧ Product.currentStock Examples.rice80
    < WeeklyStockPlan.plannedQuantity Examples.ricePlan
  ∧ ∃ rows row,
      lowStockAlertQueries_getUnresolvedAlerts Examples.plannedShopChecked
      = (Ok rows, Examples.plannedShopChecked)
      ∧ row ∈ rows
      ∧ LowStockAlert.weeklyPlanId (alert row) = 1.
Proof.
  assert (Hfirst : lowStockAlertQueries.processLowStockChecking
                     Examples.day103 Examples.plannedShop
                   = (Ok [Examples.riceAlert], Examples.plannedShopChecked))
    by (vm_compute; reflexivity).
  assert (Hpl : Examples.ricePlan ∈ weeklyStockPlans Examples.plannedShop)
    by (simpl; left).
  assert (Hcur : weeklyStockPlanQueries.isCurrent
                   (weeklyStockPlanQueries.toISODate Examples.day103)
                   Examples.ricePlan)
    by (vm_compute; split_and!; [reflexivity|discriminate..]).
  assert (Hlt : Product.currentStock Examples.rice80
                < WeeklyStockPlan.plannedQuantity Examples.ricePlan)
    by (simpl; lia).
  split_and!; [exact Hfirst|exact Hpl|exact Hcur|reflexivity|exact Hlt|].
  destruct (every_shortage_is_flagged _ _ _ _ Examples.ricePlan Examples.rice80
              Hfirst Hpl Hcur eq_refl Hlt)
    as (rows & row & Hrows & _ & Hrow & _ & Hplan & _).
  exists rows, row. split_and!; [exact Hrows|exact Hrow|exact Hplan].
Defined.

Lemma resolved_shortage_is_flagged_again_witness :
  lowStockAlertQueries.resolve Examples.laterOnDay103 1
    Examples.plannedShopChecked
  = (Ok (LowStockAlert.setResolved Examples.riceAlert Examples.laterOnDay103),
     (lowStockAlertQueries.resolve Examples.laterOnDay103 1
        Examples.plannedShopChecked).2)
  ∧ plansReferToProducts Examples.plannedShopChecked
  ∧ ∃ alerts db2 new,
      lowStockAlertQueries.processLowStockChecking
        (Examples.laterOnDay103 + 1)
        (lowStockAlertQueries.resolve Examples.laterOnDay103 1
           Examples.plannedShopChecked).2
      = (Ok alerts, db2)
      ∧ new ∈ alerts
      ∧ LowStockAlert.alertDate new = Examples.laterOnDay103 + 1.
Proof.
  assert (Hres : lowStockAlertQueries.resolve Examples.laterOnDay103 1
                   Examples.plannedShopChecked
                 = (Ok (LowStockAlert.setResolved Examples.riceAlert
                          Examples.laterOnDay103),
                    (lowStockAlertQueries.resolve Examples.laterOnDay103 1
                       Examples.plannedShopChecked).2))
    by (vm_compute; reflexivity).
  assert (Hfk : plansReferToProducts Examples.plannedShopChecked).
  { intros pl Hpl. apply list_elem_of_singleton in Hpl. subst pl.
    eexists. reflexivity. }
  split_and!; [exact Hres|exact Hfk|].
  destruct (resolved_shortage_is_flagged_again Examples.laterOnDay103
              (Examples.laterOnDay103 + 1) 1 _ _ _ Examples.ricePlan
              Examples.rice80 Hres Hfk)
    as (alerts & db2 & new & Hrun & Hnew & _ & _ & Hdate & _).
  - left.
  - vm_compute. split_and!; [reflexivity|discriminate..].
  - reflexivity.
  - simpl. lia.
  - intros b Hb _. apply list_elem_of_singleton in Hb. by subst b.
  - exists alerts, db2, new. split_and!; [exact Hrun|exact Hnew|exact Hdate].
Defined.

Lemma open_alert_survives_stock_movements_witness :
  Examples.riceAlert ∈ lowStockAlerts Examples.plannedShopChecked
  ∧ LowStockAlert.isResolved Examples.riceAlert = false
  ∧ ∃ rows row,
      lowStockAlertQueries_getUnresolvedAlerts
        (performAll [StockIn 1 7 50000 0 None None None None]
           Examples.plannedShopChecked).2
      = (Ok rows,
         (performAll [StockIn 1 7 50000 0 None None None None]
            Examples.plannedShopChecked).2)
      ∧ row ∈ rows
      ∧ alert row = Examples.riceAlert.
Proof.
  assert (Ha : Examples.riceAlert ∈ lowStockAlerts Examples.plannedShopChecked)
    by (simpl; left).
  split_and!; [exact Ha|reflexivity|].
  exact (open_alert_survives_stock_movements
           [StockIn 1 7 50000 0 None None None None]
           Examples.plannedShopChecked Examples.riceAlert Ha eq_refl).
Defined.

Lemma created_plan_is_current_witness :
  weeklyStockPlanQueries_create 1 Samples.planData Examples.shop
  = (Ok Examples.ricePlan,
     (weeklyStockPlanQueries_create 1 Samples.planData Examples.shop).2)
  ∧ InsertWeeklyStockPlan.weekStartDate Samples.planData
    ≤ weeklyStockPlanQueries.toISODate Examples.day103
  ∧ weeklyStockPlanQueries.toISODate Examples.day103
    ≤ InsertWeeklyStockPlan.weekEndDate Samples.planData
  ∧ ∃ rows,
      weeklyStockPlanQueries.getCurrentWeekPlans Examples.day103
        (weeklyStockPlanQueries_create 1 Samples.planData Examples.shop).2
      = (Ok rows,
         (weeklyStockPlanQueries_create 1 Samples.planData Examples.shop).2)
      ∧ weeklyStockPlanQueries.mkDetails Examples.ricePlan
          (Some Examples.rice) ∈ rows.
Proof.
  assert (Hrun : weeklyStockPlanQueries_create 1 Samples.planData Examples.shop
                 = (Ok Examples.ricePlan,
                    (weeklyStockPlanQueries_create 1 Samples.planData
                       Examples.shop).2))
    by (vm_compute; reflexivity).
  assert (Hstart : InsertWeeklyStockPlan.weekStartDate Samples.planData
                   ≤ weeklyStockPlanQueries.toISODate Examples.day103)
    by (vm_compute; discriminate).
  assert (Hend : weeklyStockPlanQueries.toISODate Examples.day103
                 ≤ InsertWeeklyStockPlan.weekEndDate Samples.planData)
    by (vm_compute; discriminate).
  split_and!; [exact Hrun|exact Hstart|exact Hend|].
  destruct (created_plan_is_current 1 Samples.planData Examples.shop _
              Examples.ricePlan Examples.day103 Hrun Hstart Hend)
    as (rows & p & Hrows & Hp & Hrow & _).
  exists rows. split; [exact Hrows|].
  injection Hp as <-. exact Hrow.
Defined.


Lemma deleteUser_answers_witness :
  routes.role Samples.admin = routes.super_admin
  ∧ ∃ resp,
      (routes.deleteUser (Some Samples.admin) 7 Samples.shopTwoUsers).1
      = Ok resp
      ∧ routes.status resp = 400
      ∧ (routes.deleteUser (Some Samples.admin) 7 Samples.shopTwoUsers).2
        = Samples.shopTwoUsers.
Proof.
  split; [reflexivity|].
  destruct (deleteUser_answers Samples.admin 7 Samples.shopTwoUsers eq_refl)
    as (resp & Hanswer & [H200|H400] & Hiff & _ & Hkept & _).
  - apply Hiff in H200 as (_ & Hmoved & _). exfalso. apply Hmoved.
    simpl. left.
  - exists resp. split_and!; [exact Hanswer|exact H400|exact (Hkept H400)].
Defined.

Lemma resolveAlert_answers_witness :
  routes.role Samples.clerk
  ∈ [routes.super_admin; routes.master_inventory_handler;
     routes.stock_in_manager]
  ∧ routes.resolveAlert Examples.laterOnDay103 (Some Samples.clerk) 5
      Examples.plannedShopChecked
    = (Ok (routes.mkResponse 500 (routes.Message "Failed to resolve alert")),
       Examples.plannedShopChecked).
Proof.
  assert (Hrole : routes.role Samples.clerk
                  ∈ [routes.super_admin; routes.master_inventory_handler;
                     routes.stock_in_manager])
    by (simpl; right; right; left).
  split; [exact Hrole|].
  apply (proj1 (resolveAlert_answers Examples.laterOnDay103 Samples.clerk 5
                  Examples.plannedShopChecked Hrole)).
  intros a Ha. apply list_elem_of_singleton in Ha. subst a.
  simpl. lia.
Defined.

Lemma checkLowStock_answers_witness :
  routes.role Samples.admin
  ∈ [routes.super_admin; routes.master_inventory_handler]
  ∧ plansReferToProducts Examples.plannedShop
  ∧ ∃ created,
      (routes.checkLowStock Examples.day103 (Some Samples.admin)
         Examples.plannedShop).1
      = Ok (routes.mkResponse 200
              (routes.CheckResult
                 ("Low stock checking completed. "
                  ++ pretty (Z.of_nat (length created))
                  ++ " new alerts created.")
                 (Z.of_nat (length created)) created)).
Proof.
  assert (Hrole : routes.role Samples.admin
                  ∈ [routes.super_admin; routes.master_inventory_handler])
    by (simpl; left).
  assert (Hfk : plansReferToProducts Examples.plannedShop).
  { intros pl Hpl. apply list_elem_of_singleton in Hpl. subst pl.
    eexists. reflexivity. }
  split_and!; [exact Hrole|exact Hfk|].
  destruct (checkLowStock_answers Examples.day103 Samples.admin
              Examples.plannedShop Hrole)
    as [(created & Hanswer & _)|[_ Hbroken]].
  - exists created. exact Hanswer.
  - destruct (Hbroken Hfk).
Defined.
